(** * StyleHub POS: checkout and instalment logic

    A shallow embedding of the point-of-sale page ([PDV]) and of the
    instalment page ([Installments]) of the StyleHub POS front end, with the
    properties of the checkout specification stated over it.

    Two revisions of the point-of-sale page are part of the code base: the
    page at [src/pages/PDV.tsx] (module [PDVLegacy] below) and its reworked
    revision (module [PDV]).  Both are embedded, function by function.

    Modelling conventions.
    - A JavaScript [number] holding money is a rational ([Q]); arithmetic is
      exact, so [NaN] and the infinities do not arise and [isFinite] is
      always true.  Quantities, stock levels and instalment counts are
      integers ([Z]), as the database columns are.
    - React state is passed explicitly: a handler takes the state it reads
      and returns the state it sets, with the toast it raises.
    - The hosted store is a record of tables; a call against it may fail,
      which is decided by an oracle given to the handler. *)

From Stdlib Require Import List String Bool ZArith QArith Qround Qminmax Lia Lqa.
Import ListNotations.

Local Open Scope Z_scope.

(** ** Rows of the hosted store that the pages read and write *)

Module Product.
(** [Database["public"]["Tables"]["products"]["Row"]], restricted to the
    columns the checkout reads. *)
Record t : Type := mk {
  id : string;
  code : string;
  name : string;
  sale_price : Q;
  stock_quantity : Z;
  active : bool
}.
End Product.

(** [interface CartItem { product: Product; quantity: number }].  The legacy
    page spreads the product columns into the item ([CartItem extends
    Product]); the same record serves both, [item.id] of the legacy page being
    [Product.id (product item)]. *)
Record CartItem : Type := mkCartItem {
  product : Product.t;
  quantity : Z
}.

Definition Cart := list CartItem.

(** [payment_method], one of the four values the select box offers. *)
Inductive PaymentMethod : Type := cash | card | pix | installment.

Definition PaymentMethod_eqb (a b : PaymentMethod) : bool :=
  match a, b with
  | cash, cash | card, card | pix, pix | installment, installment => true
  | _, _ => false
  end.

(** The toasts the handlers raise, named after the error taxonomy of the
    specification:
    - [InsufficientStock n] is the destructive toast "Estoque insuficiente"
      reporting [n] available units;
    - [Added] is "Adicionado" / "Produto adicionado";
    - [EmptyCart] is "Carrinho vazio";
    - [Unauthenticated] is "Usuario nao autenticado";
    - [SaleFinalized id] is "Venda finalizada";
    - [FinalizeFailed] is the toast of the [catch] branch of [finalizeSale]. *)
Inductive Toast : Type :=
| InsufficientStock (available : Z)
| Added
| EmptyCart
| Unauthenticated
| SaleFinalized (sale_id : string)
| FinalizeFailed.

(** ** Numbers and dates of the host *)

Module Js.

(** [Number(x.toFixed(2))]: the multiple of 1/100 nearest to [x], the
    larger candidate on a tie; a negative [x] is formatted as the negation
    of [(-x).toFixed(2)]. *)
Definition roundHalfUp (x : Q) : Z := Qfloor (x + (1 # 2))%Q.

Definition toFixed2 (x : Q) : Q :=
  if Qle_bool 0 x
  then (inject_Z (roundHalfUp (x * 100)) / 100)%Q
  else (- (inject_Z (roundHalfUp (- x * 100)) / 100))%Q.

(** A [Date] object, by its calendar fields: [month] counts from 0 as
    [getMonth] does, [ms] is the time elapsed within the day.  The host
    clock is taken to run in UTC, so the local-time accessors
    ([getMonth], [setMonth]) and [toISOString] read the same fields. *)
Record Date : Type := mkDate {
  year : Z;
  month : Z;
  day : Z;
  ms : Z
}.

(** The date part of an ISO-8601 timestamp, ["YYYY-MM-DD"], with the month
    counted from 1. *)
Record IsoDate : Type := mkIso {
  iso_year : Z;
  iso_month : Z;
  iso_day : Z
}.

Definition isLeap (y : Z) : bool :=
  ((y mod 4 =? 0) && negb (y mod 100 =? 0)) || (y mod 400 =? 0).

(** Days of month [m] (0-based) of year [y]. *)
Definition daysInMonth (y m : Z) : Z :=
  if m =? 1 then (if isLeap y then 29 else 28)
  else if (m =? 3) || (m =? 5) || (m =? 8) || (m =? 10) then 30
  else 31.

Definition getMonth (d : Date) : Z := month d.

(** [d.setMonth(m)]: the month is carried into the year, and a day of the
    month that the target month does not have runs over into the month
    after it (31 January set to month 1 is 2 or 3 March).  One carry is
    enough for a day of at most 31. *)
Definition setMonth (d : Date) (m : Z) : Date :=
  let y := year d + m / 12 in
  let mn := m mod 12 in
  let dim := daysInMonth y mn in
  if day d <=? dim then mkDate y mn (day d) (ms d)
  else if mn =? 11 then mkDate (y + 1) 0 (day d - dim) (ms d)
  else mkDate y (mn + 1) (day d - dim) (ms d).

(** [d.toISOString().split("T")[0]] *)
Definition toISODate (d : Date) : IsoDate :=
  mkIso (year d) (month d + 1) (day d).

(** [new Date("YYYY-MM-DD")]: midnight UTC of that day. *)
Definition parseISODate (s : IsoDate) : Date :=
  mkDate (iso_year s) (iso_month s - 1) (iso_day s) 0.

(** [a < b] on [Date] objects compares the instants, which on calendar
    fields is the lexicographic order. *)
Definition ltb (a b : Date) : bool :=
  (year a <? year b)
  || ((year a =? year b)
      && ((month a <? month b)
          || ((month a =? month b)
              && ((day a <? day b)
                  || ((day a =? day b) && (ms a <? ms b)))))).

End Js.

(** ** The hosted store *)

Module Sale.
Inductive Status : Type := completed | pending | cancelled.

(** A row of [sales]; [sale_date] and [created_at] are defaulted by the
    store and not read here. *)
Record t : Type := mk {
  id : string;
  customer_id : option string;
  user_id : string;
  total_amount : Q;
  discount : Q;
  payment_method : PaymentMethod;
  installments : Z;
  status : Status
}.
End Sale.

Module SaleItem.
Record t : Type := mk {
  sale_id : string;
  product_id : string;
  quantity : Z;
  unit_price : Q;
  total_price : Q
}.
End SaleItem.

Module Installment.
(** The values the [status] column admits. *)
Inductive Status : Type := pending | paid | overdue.

Definition Status_eqb (a b : Status) : bool :=
  match a, b with
  | pending, pending | paid, paid | overdue, overdue => true
  | _, _ => false
  end.

(** A row of [installments]; [status] and [payment_date] are nullable. *)
Record t : Type := mk {
  id : string;
  sale_id : string;
  installment_number : Z;
  amount : Q;
  due_date : Js.IsoDate;
  payment_date : option Js.IsoDate;
  status : option Status
}.

(** The object [finalizeSale] inserts: the store fills in [id] and leaves
    [payment_date] null. *)
Record insert : Type := mkInsert {
  new_sale_id : string;
  new_installment_number : Z;
  new_amount : Q;
  new_due_date : Js.IsoDate;
  new_status : Status
}.
End Installment.

Module Db.
Record t : Type := mk {
  products : list Product.t;
  sales : list Sale.t;
  sale_items : list SaleItem.t;
  installments : list Installment.t
}.

(** [from("products").update({ stock_quantity: q }).eq("id", pid)] *)
Definition update_stock (pid : string) (q : Z) (db : t) : t :=
  mk (map (fun p =>
             if (Product.id p =? pid)%string
             then Product.mk (Product.id p) (Product.code p) (Product.name p)
                             (Product.sale_price p) q (Product.active p)
             else p) (products db))
     (sales db) (sale_items db) (installments db).

(** [from("sales").insert(row)] *)
Definition insert_sale (row : Sale.t) (db : t) : t :=
  mk (products db) (sales db ++ [row]) (sale_items db) (installments db).

(** [from("sale_items").insert(rows)] *)
Definition insert_sale_items (rows : list SaleItem.t) (db : t) : t :=
  mk (products db) (sales db) (sale_items db ++ rows) (installments db).

(** [from("installments").insert(rows)]; [uuid] names the row the store
    creates for an inserted object. *)
Definition insert_installments (uuid : Installment.insert -> string)
           (rows : list Installment.insert) (db : t) : t :=
  mk (products db) (sales db) (sale_items db)
     (installments db ++
      map (fun r => Installment.mk (uuid r)
                      (Installment.new_sale_id r)
                      (Installment.new_installment_number r)
                      (Installment.new_amount r)
                      (Installment.new_due_date r)
                      None
                      (Some (Installment.new_status r))) rows).

(** [from("installments").update({ status, payment_date }).eq("id", iid)] *)
Definition update_installment (iid : string) (s : Installment.Status)
           (paid_on : Js.IsoDate) (db : t) : t :=
  mk (products db) (sales db) (sale_items db)
     (map (fun r =>
             if (Installment.id r =? iid)%string
             then Installment.mk (Installment.id r) (Installment.sale_id r)
                    (Installment.installment_number r) (Installment.amount r)
                    (Installment.due_date r) (Some paid_on) (Some s)
             else r) (installments db)).

(** The stock the store holds for a product id, if it has that product. *)
Definition stock_of (pid : string) (db : t) : option Z :=
  option_map Product.stock_quantity
    (find (fun p => (Product.id p =? pid)%string) (products db)).
End Db.

(** The calls [finalizeSale] makes against the store, in the order it makes
    them. *)
Inductive Step : Type :=
| InsertSale
| InsertSaleItems
| UpdateStock (product_id : string)
| InsertInstallments.

(** What the page cannot decide: which calls the store answers with an
    error, and the identifiers the store generates. *)
Record Backend : Type := mkBackend {
  fails : Step -> bool;
  sale_uuid : string;
  installment_uuid : Installment.insert -> string
}.

(** Store calls inside a [try] block: a computation on the store that
    either yields a value or throws, keeping what was written before. *)
Definition Call (A : Type) : Type := Db.t -> Db.t * option A.

Definition ret {A} (a : A) : Call A := fun db => (db, Some a).

Definition bind {A B} (m : Call A) (k : A -> Call B) : Call B :=
  fun db =>
    match m db with
    | (db', Some a) => k a db'
    | (db', None) => (db', None)
    end.

Notation "x <- m ;; k" := (bind m (fun x => k))
  (at level 61, m at next level, right associativity).

(** [const { error } = await call; if (error) throw error;] *)
Definition request (be : Backend) (s : Step) (write : Db.t -> Db.t) : Call unit :=
  fun db => if fails be s then (db, None) else (write db, Some tt).

(** [for (const x of xs) { ... }] with a body that may throw. *)
Fixpoint forEach {A} (body : A -> Call unit) (xs : list A) : Call unit :=
  match xs with
  | [] => ret tt
  | x :: rest => _ <- body x ;; forEach body rest
  end.

(** The state of the page that [finalizeSale] reads; [user] is the
    identifier of the signed-in user, if any. *)
Module State.
Record t : Type := mk {
  cart : Cart;
  discount : Q;
  paymentMethod : PaymentMethod;
  installments : Z;
  selectedCustomerId : string;
  user : option string
}.
End State.

(** [s || null] on a string. *)
Definition orNull (s : string) : option string :=
  if (s =? "")%string then None else Some s.

(** ** Input masks ([src/lib/masks.ts])

    Strings are byte strings.  The functions below keep decimal digits and
    drop everything else before they index, so the bytes of a character
    outside ASCII, none of which is a digit, are dropped like the character
    itself. *)

Module Masks.

(** [\d] *)
Definition isDigit (c : Ascii.ascii) : bool :=
  (48 <=? Ascii.nat_of_ascii c)%nat && (Ascii.nat_of_ascii c <=? 57)%nat.

(** [(value || "").replace(/\D+/g, "")] *)
Fixpoint onlyDigits (value : string) : string :=
  match value with
  | EmptyString => EmptyString
  | String c rest =>
      if isDigit c then String c (onlyDigits rest) else onlyDigits rest
  end.

(** [v.slice(0, n)] *)
Fixpoint take (n : nat) (v : string) : string :=
  match n, v with
  | S n', String c rest => String c (take n' rest)
  | _, _ => EmptyString
  end.

(** [v.slice(n)] *)
Fixpoint drop (n : nat) (v : string) : string :=
  match n, v with
  | S n', String _ rest => drop n' rest
  | _, _ => v
  end.

(** [v.slice(a, b)] for [a <= b] *)
Definition slice (a b : nat) (v : string) : string := take (b - a) (drop a v).

(** [formatCPF(value)] *)
Definition formatCPF (value : string) : string :=
  let v := slice 0 11 (onlyDigits value) in
  if (String.length v <=? 3)%nat then v
  else if (String.length v <=? 6)%nat then slice 0 3 v ++ "." ++ drop 3 v
  else if (String.length v <=? 9)%nat
       then slice 0 3 v ++ "." ++ slice 3 6 v ++ "." ++ drop 6 v
       else slice 0 3 v ++ "." ++ slice 3 6 v ++ "." ++ slice 6 9 v
            ++ "-" ++ slice 9 11 v.

(** [formatCNPJ(value)] *)
Definition formatCNPJ (value : string) : string :=
  let v := slice 0 14 (onlyDigits value) in
  if (String.length v <=? 2)%nat then v
  else if (String.length v <=? 5)%nat then slice 0 2 v ++ "." ++ drop 2 v
  else if (String.length v <=? 8)%nat
       then slice 0 2 v ++ "." ++ slice 2 5 v ++ "." ++ drop 5 v
  else if (String.length v <=? 12)%nat
       then slice 0 2 v ++ "." ++ slice 2 5 v ++ "." ++ slice 5 8 v
            ++ "/" ++ drop 8 v
       else slice 0 2 v ++ "." ++ slice 2 5 v ++ "." ++ slice 5 8 v
            ++ "/" ++ slice 8 12 v ++ "-" ++ slice 12 14 v.

(** [formatCpfCnpj(value)] *)
Definition formatCpfCnpj (value : string) : string :=
  let digits := onlyDigits value in
  if (String.length digits <=? 11)%nat then formatCPF digits
  else formatCNPJ digits.

(** [formatCEP(value)] *)
Definition formatCEP (value : string) : string :=
  let v := slice 0 8 (onlyDigits value) in
  if (String.length v <=? 5)%nat then v
  else slice 0 5 v ++ "-" ++ slice 5 8 v.

(** [formatPhoneBR(value)] *)
Definition formatPhoneBR (value : string) : string :=
  let v := slice 0 11 (onlyDigits value) in
  if (String.length v <=? 2)%nat then "(" ++ v
  else if (String.length v <=? 6)%nat
       then "(" ++ slice 0 2 v ++ ") " ++ drop 2 v
  else if (String.length v <=? 10)%nat
       then "(" ++ slice 0 2 v ++ ") " ++ slice 2 6 v ++ "-" ++ drop 6 v
       else "(" ++ slice 0 2 v ++ ") " ++ slice 2 7 v ++ "-" ++ drop 7 v.

End Masks.

(** [type CustomerLite = Pick<Customer, "id" | "name" | "cpf_cnpj">] *)
Module Customer.
Record lite : Type := mkLite {
  id : string;
  name : string;
  cpf_cnpj : option string
}.
End Customer.

(** What looking a product up raises: its own toasts ("Informe o codigo ou
    nome", "Produto nao encontrado") or whatever adding the product found
    raises. *)
Inductive SearchToast : Type :=
| InformQuery
| ProductNotFound
| FromCart (t : option Toast).

(** The toasts of [handleCreateCustomerFromCPF]: "CPF/CNPJ invalido",
    "Cliente criado" with the formatted number, and the toast of its [catch]
    branch. *)
Inductive CustomerToast : Type :=
| InvalidCpf
| CustomerCreated (formatted : string)
| CustomerFailed.

(** [s] as a condition: a string is falsy when empty. *)
Definition truthy (s : string) : bool := negb (s =? "")%string.

(** ** The reworked point-of-sale page *)

Module PDV.

Definition same_product (pid : string) (c : CartItem) : bool :=
  (Product.id (product c) =? pid)%string.

(** [cart.reduce((sum, item) => sum + item.product.sale_price * item.quantity, 0)] *)
Definition subtotal (cart : Cart) : Q :=
  fold_left
    (fun sum item => sum + Product.sale_price (product item) * inject_Z (quantity item))%Q
    cart 0%Q.

(** [Math.max(0, subtotal - (isFinite(discount) ? discount : 0))] *)
Definition total (cart : Cart) (discount : Q) : Q :=
  Qmax 0 (subtotal cart - discount).

(** [addProductToCart(product, qty = 1)] *)
Definition addProductToCart (cart : Cart) (p : Product.t) (qty : Z)
  : Cart * option Toast :=
  if qty <=? 0 then (cart, None)
  else
    match find (same_product (Product.id p)) cart with
    | Some existing =>
        if quantity existing + qty >? Product.stock_quantity p
        then (cart, Some (InsufficientStock (Product.stock_quantity p)))
        else (map (fun c =>
                     if same_product (Product.id p) c
                     then mkCartItem (product c) (quantity c + qty)
                     else c) cart,
              Some Added)
    | None =>
        if qty >? Product.stock_quantity p
        then (cart, Some (InsufficientStock (Product.stock_quantity p)))
        else (cart ++ [mkCartItem p qty], Some Added)
    end.

(** [updateItemQty(productId, newQty)] *)
Definition updateItemQty (products : list Product.t) (cart : Cart)
           (productId : string) (newQty : Z) : Cart * option Toast :=
  if newQty <=? 0
  then (filter (fun c => negb (same_product productId c)) cart, None)
  else
    match find (fun p => (Product.id p =? productId)%string) products with
    | Some prod =>
        if newQty >? Product.stock_quantity prod
        then (cart, Some (InsufficientStock (Product.stock_quantity prod)))
        else (map (fun c =>
                     if same_product productId c
                     then mkCartItem (product c) newQty
                     else c) cart, None)
    | None =>
        (map (fun c =>
                if same_product productId c
                then mkCartItem (product c) newQty
                else c) cart, None)
    end.

(** [removeItem(productId)] *)
Definition removeItem (cart : Cart) (productId : string) : Cart :=
  filter (fun c => negb (same_product productId c)) cart.

(** The block of [finalizeSale] that builds the instalment rows:
    [Number((total / installments).toFixed(2))] for every row, and for the
    row of index [idx] a fresh [new Date()] moved on by [idx + 1] months. *)
Definition installmentRows (sale_id : string) (total : Q) (installments : Z)
           (now : Js.Date) : list Installment.insert :=
  let installmentAmount := Js.toFixed2 (total / inject_Z installments) in
  map (fun idx : Z =>
         let dueDate := Js.setMonth now (Js.getMonth now + (idx + 1)) in
         Installment.mkInsert sale_id (idx + 1) installmentAmount
                              (Js.toISODate dueDate) Installment.pending)
      (map Z.of_nat (seq 0 (Z.to_nat installments))).

(** The row [finalizeSale] inserts into [sales]. *)
Definition saleRow (be : Backend) (user_id : string) (st : State.t) : Sale.t :=
  Sale.mk (sale_uuid be)
          (orNull (State.selectedCustomerId st))
          user_id
          (total (State.cart st) (State.discount st))
          (State.discount st)
          (State.paymentMethod st)
          (if PaymentMethod_eqb (State.paymentMethod st) installment
           then State.installments st else 1)
          Sale.completed.

(** The rows [finalizeSale] inserts into [sale_items]. *)
Definition saleItems (sale_id : string) (cart : Cart) : list SaleItem.t :=
  map (fun item =>
         SaleItem.mk sale_id
                     (Product.id (product item))
                     (quantity item)
                     (Product.sale_price (product item))
                     (Product.sale_price (product item) * inject_Z (quantity item))%Q)
      cart.

(** The body of the [try] block of [finalizeSale]. *)
Definition submit (be : Backend) (now : Js.Date) (user_id : string)
           (st : State.t) : Call string :=
  let sale := saleRow be user_id st in
  _ <- request be InsertSale (Db.insert_sale sale) ;;
  _ <- request be InsertSaleItems
         (Db.insert_sale_items (saleItems (Sale.id sale) (State.cart st))) ;;
  _ <- forEach
         (fun item =>
            let newQty := Product.stock_quantity (product item) - quantity item in
            request be (UpdateStock (Product.id (product item)))
                    (Db.update_stock (Product.id (product item)) newQty))
         (State.cart st) ;;
  _ <- (if PaymentMethod_eqb (State.paymentMethod st) installment
           && (State.installments st >? 1)
        then request be InsertInstallments
               (Db.insert_installments (installment_uuid be)
                  (installmentRows (Sale.id sale)
                     (total (State.cart st) (State.discount st))
                     (State.installments st) now))
        else ret tt) ;;
  ret (Sale.id sale).

(** [finalizeSale()]: the store it leaves and the toast it raises.  The
    receipt it prints and the form it resets on success are not part of
    the model. *)
Definition finalizeSale (be : Backend) (now : Js.Date) (st : State.t)
           (db : Db.t) : Db.t * Toast :=
  if (List.length (State.cart st) =? 0)%nat then (db, EmptyCart)
  else
    match State.user st with
    | None => (db, Unauthenticated)
    | Some user_id =>
        match submit be now user_id st db with
        | (db', Some sale_id) => (db', SaleFinalized sale_id)
        | (db', None) => (db', FinalizeFailed)
        end
    end.

Section Search.

(** [String.prototype.trim], [toLowerCase] and [includes] of the host. *)
Variables (trim toLowerCase : string -> string).
Variable includes : string -> string -> bool.

(** [filteredProducts] *)
Definition filteredProducts (products : list Product.t) (productQuery : string)
  : list Product.t :=
  let q := toLowerCase (trim productQuery) in
  if negb (truthy q) then products
  else filter (fun p =>
                 (truthy (Product.code p)
                  && includes (toLowerCase (Product.code p)) q)
                 || (truthy (Product.name p)
                     && includes (toLowerCase (Product.name p)) q))
              products.

(** [handleBarcodeEnter()]: the cart and the query it leaves, and the toast. *)
Definition handleBarcodeEnter (products : list Product.t) (cart : Cart)
           (productQuery : string) : Cart * string * SearchToast :=
  let q := trim productQuery in
  if negb (truthy q) then (cart, productQuery, InformQuery)
  else
    let exact :=
      find (fun p => (toLowerCase (Product.code p) =? toLowerCase q)%string)
           products in
    let chosen :=
      match exact with
      | Some p => Some p
      | None => hd_error (filteredProducts products productQuery)
      end in
    match chosen with
    | Some p =>
        (fst (addProductToCart cart p 1), ""%string,
         FromCart (snd (addProductToCart cart p 1)))
    | None => (cart, productQuery, ProductNotFound)
    end.

(** [handleCreateCustomerFromCPF()].  [answer] is what the store answers to
    the insert: the identifier of the new row, or an error ([None]).  The
    result is the [customers], [selectedCustomerId] and [cpfAvulso] states,
    the row sent to the store if any (name and number), and the toast. *)
Definition handleCreateCustomerFromCPF (answer : option string)
           (customers : list Customer.lite) (selectedCustomerId cpfAvulso : string)
  : list Customer.lite * string * string * option (string * string) * CustomerToast :=
  let cpf := Masks.onlyDigits (trim cpfAvulso) in
  if negb (truthy cpf)
  then (customers, selectedCustomerId, cpfAvulso, None, InvalidCpf)
  else
    match answer with
    | Some new_id =>
        (customers ++ [Customer.mkLite new_id "Consumidor Final" (Some cpf)],
         new_id, ""%string, Some ("Consumidor Final"%string, cpf),
         CustomerCreated (Masks.formatCpfCnpj cpf))
    | None =>
        (customers, selectedCustomerId, cpfAvulso,
         Some ("Consumidor Final"%string, cpf), CustomerFailed)
    end.

End Search.

End PDV.

(** ** The legacy point-of-sale page *)

Module PDVLegacy.

Definition same_product := PDV.same_product.

(** [getTotal()] *)
Definition getTotal (cart : Cart) (discount : Q) : Q :=
  let subtotal :=
    fold_left
      (fun sum item => sum + Product.sale_price (product item) * inject_Z (quantity item))%Q
      cart 0%Q in
  (subtotal - discount)%Q.

(** [addToCart(product)]: one unit at a time. *)
Definition addToCart (cart : Cart) (p : Product.t) : Cart * option Toast :=
  match find (same_product (Product.id p)) cart with
  | Some existingItem =>
      if quantity existingItem >=? Product.stock_quantity p
      then (cart, Some (InsufficientStock (Product.stock_quantity p)))
      else (map (fun item =>
                   if same_product (Product.id p) item
                   then mkCartItem (product item) (quantity item + 1)
                   else item) cart,
            Some Added)
  | None => (cart ++ [mkCartItem p 1], Some Added)
  end.

(** [updateQuantity(productId, newQuantity)] *)
Definition updateQuantity (products : list Product.t) (cart : Cart)
           (productId : string) (newQuantity : Z) : Cart * option Toast :=
  if newQuantity <=? 0
  then (filter (fun item => negb (same_product productId item)) cart, None)
  else
    match find (fun p => (Product.id p =? productId)%string) products with
    | Some prod =>
        if newQuantity >? Product.stock_quantity prod
        then (cart, Some (InsufficientStock (Product.stock_quantity prod)))
        else (map (fun item =>
                     if same_product productId item
                     then mkCartItem (product item) newQuantity
                     else item) cart, None)
    | None =>
        (map (fun item =>
                if same_product productId item
                then mkCartItem (product item) newQuantity
                else item) cart, None)
    end.

(** The block of [finalizeSale] that builds the instalment rows:
    [getTotal() / installments] for every row, pushed for
    [i = 1, ..., installments]. *)
Definition installmentData (sale_id : string) (total : Q) (installments : Z)
           (now : Js.Date) : list Installment.insert :=
  let installmentAmount := (total / inject_Z installments)%Q in
  map (fun i : Z =>
         let dueDate := Js.setMonth now (Js.getMonth now + i) in
         Installment.mkInsert sale_id i installmentAmount
                              (Js.toISODate dueDate) Installment.pending)
      (map Z.of_nat (seq 1 (Z.to_nat installments))).

(** The row [finalizeSale] inserts into [sales]. *)
Definition saleRow (be : Backend) (user_id : string) (st : State.t) : Sale.t :=
  Sale.mk (sale_uuid be)
          (orNull (State.selectedCustomerId st))
          user_id
          (getTotal (State.cart st) (State.discount st))
          (State.discount st)
          (State.paymentMethod st)
          (if PaymentMethod_eqb (State.paymentMethod st) installment
           then State.installments st else 1)
          Sale.completed.

(** The rows [finalizeSale] inserts into [sale_items]. *)
Definition saleItems (sale_id : string) (cart : Cart) : list SaleItem.t :=
  map (fun item =>
         SaleItem.mk sale_id
                     (Product.id (product item))
                     (quantity item)
                     (Product.sale_price (product item))
                     (Product.sale_price (product item) * inject_Z (quantity item))%Q)
      cart.

(** The body of the [try] block of [finalizeSale]. *)
Definition submit (be : Backend) (now : Js.Date) (user_id : string)
           (st : State.t) : Call string :=
  let sale := saleRow be user_id st in
  _ <- request be InsertSale (Db.insert_sale sale) ;;
  _ <- request be InsertSaleItems
         (Db.insert_sale_items (saleItems (Sale.id sale) (State.cart st))) ;;
  _ <- forEach
         (fun item =>
            request be (UpdateStock (Product.id (product item)))
                    (Db.update_stock (Product.id (product item))
                       (Product.stock_quantity (product item) - quantity item)))
         (State.cart st) ;;
  _ <- (if PaymentMethod_eqb (State.paymentMethod st) installment
           && (State.installments st >? 1)
        then request be InsertInstallments
               (Db.insert_installments (installment_uuid be)
                  (installmentData (Sale.id sale)
                     (getTotal (State.cart st) (State.discount st))
                     (State.installments st) now))
        else ret tt) ;;
  ret (Sale.id sale).

(** [finalizeSale()]: the store it leaves and the toast it raises. *)
Definition finalizeSale (be : Backend) (now : Js.Date) (st : State.t)
           (db : Db.t) : Db.t * Toast :=
  if (List.length (State.cart st) =? 0)%nat then (db, EmptyCart)
  else
    match State.user st with
    | None => (db, Unauthenticated)
    | Some user_id =>
        match submit be now user_id st db with
        | (db', Some sale_id) => (db', SaleFinalized sale_id)
        | (db', None) => (db', FinalizeFailed)
        end
    end.

(** [removeFromCart(productId)] *)
Definition removeFromCart (cart : Cart) (productId : string) : Cart :=
  filter (fun item => negb (same_product productId item)) cart.

(** [searchProductByCode()]: the cart and the search box it leaves, and the
    toast. *)
Definition searchProductByCode (products : list Product.t) (cart : Cart)
           (searchCode : string) : Cart * string * SearchToast :=
  match find (fun p => (Product.code p =? searchCode)%string) products with
  | Some product =>
      (fst (addToCart cart product), ""%string,
       FromCart (snd (addToCart cart product)))
  | None => (cart, searchCode, ProductNotFound)
  end.

End PDVLegacy.

(** ** The instalment page *)

Module Installments.

(** A date as the page holds it in a string: the date column as the store
    returns it, or a full timestamp ([toISOString()]). *)
Inductive DateText : Type :=
| DateOnly (d : Js.IsoDate)
| Timestamp (d : Js.Date).

(** [type InstallmentRow = Installment & { sale_code; customer_name?;
    total_amount?; is_overdue? }] *)
Record InstallmentRow : Type := mkRow {
  id : string;
  sale_id : string;
  installment_number : Z;
  amount : Q;
  due_date : Js.IsoDate;
  payment_date : option DateText;
  status : option Installment.Status;
  sale_code : string;
  customer_name : option string;
  total_amount : option Q;
  is_overdue : option bool
}.

(** The value of the status select box. *)
Inductive StatusFilter : Type :=
| FilterAll | FilterPending | FilterPaid | FilterOverdue.

Inductive Badge : Type := Pago | Vencido | Pendente.

Inductive Toast : Type := MarkedPaid | MarkPaidFailed.

Definition status_is (s : Installment.Status) (r : InstallmentRow) : bool :=
  match status r with
  | Some s' => Installment.Status_eqb s' s
  | None => false
  end.

(** The first statements of the callback of [filtered]:
    [r.is_overdue = r.status === "pending" && new Date(r.due_date) < today],
    an assignment to the row object held in the [rows] state. *)
Definition markOverdue (today : Js.Date) (r : InstallmentRow) : InstallmentRow :=
  mkRow (id r) (sale_id r) (installment_number r) (amount r) (due_date r)
        (payment_date r) (status r) (sale_code r) (customer_name r)
        (total_amount r)
        (Some (status_is Installment.pending r
               && Js.ltb (Js.parseISODate (due_date r)) today)).

(** The rest of the callback, on the row as [markOverdue] left it;
    [queryMatch] is the text search on sale code and customer name. *)
Definition keeps (queryMatch : InstallmentRow -> bool) (f : StatusFilter)
           (r : InstallmentRow) : bool :=
  let statusMatch :=
    match f with
    | FilterPending => status_is Installment.pending r
    | FilterPaid => status_is Installment.paid r
    | FilterOverdue =>
        match is_overdue r with Some true => true | _ => false end
    | FilterAll => true
    end in
  statusMatch && queryMatch r.

(** [filtered]: [rows.filter] runs the callback on every row, so every row
    object of the state is written; the result is the state as the pass
    leaves it, with the rows the pass keeps. *)
Definition filtered (queryMatch : InstallmentRow -> bool) (f : StatusFilter)
           (today : Js.Date) (rows : list InstallmentRow)
  : list InstallmentRow * list InstallmentRow :=
  let rows' := map (markOverdue today) rows in
  (rows', filter (keeps queryMatch f) rows').

(** [getStatusBadge(row)] *)
Definition getStatusBadge (row : InstallmentRow) : Badge :=
  if status_is Installment.paid row then Pago
  else match is_overdue row with
       | Some true => Vencido
       | _ => Pendente
       end.

(** [markAsPaid(id)], the same in both revisions of the page: the store is
    updated first and, unless it answers with an error, the row of the
    [rows] state. *)
Definition markAsPaid (store_fails : bool) (now : Js.Date) (iid : string)
           (db : Db.t) (rows : list InstallmentRow)
  : Db.t * list InstallmentRow * Toast :=
  if store_fails then (db, rows, MarkPaidFailed)
  else
    (Db.update_installment iid Installment.paid (Js.toISODate now) db,
     map (fun r =>
            if (id r =? iid)%string
            then mkRow (id r) (sale_id r) (installment_number r) (amount r)
                       (due_date r) (Some (Timestamp now))
                       (Some Installment.paid) (sale_code r)
                       (customer_name r) (total_amount r) (is_overdue r)
            else r) rows,
     MarkedPaid).

(** The counters shown above the list. *)
Module Stats.
Record t : Type := mk {
  total : nat;
  pending : nat;
  paid : nat;
  overdue : nat;
  totalValue : Q;
  pendingValue : Q
}.
End Stats.

(** [stats], read at instant [today]. *)
Definition stats (today : Js.Date) (rows : list InstallmentRow) : Stats.t :=
  Stats.mk
    (List.length rows)
    (List.length (filter (status_is Installment.pending) rows))
    (List.length (filter (status_is Installment.paid) rows))
    (List.length
       (filter (fun r => status_is Installment.pending r
                         && Js.ltb (Js.parseISODate (due_date r)) today) rows))
    (fold_left (fun sum r => sum + amount r)%Q rows 0%Q)
    (fold_left (fun sum r => sum + amount r)%Q
               (filter (status_is Installment.pending) rows) 0%Q).

(** What [generateCarnet] does: it writes a payment slip per row into a new
    window, or raises "Nenhuma parcela". *)
Inductive Carnet : Type :=
| Printed (items : list InstallmentRow)
| NoRows.

(** [generateCarnet(installmentId?)] over the current view [filtered]; the
    markup of a slip is not part of the model.  An identifier that is absent
    or empty selects the pending rows of the view. *)
Definition generateCarnet (installmentId : option string)
           (view : list InstallmentRow) : Carnet :=
  let itemsToPrint :=
    match installmentId with
    | Some i =>
        if truthy i then filter (fun r => (id r =? i)%string) view
        else filter (status_is Installment.pending) view
    | None => filter (status_is Installment.pending) view
    end in
  if (List.length itemsToPrint =? 0)%nat then NoRows else Printed itemsToPrint.

End Installments.

(** ** Definitions used to state the properties *)

(** The subtotal in the words of the specification: the sum, over the lines
    of the cart, of unit price times quantity. *)
Fixpoint lineTotals (cart : Cart) : Q :=
  match cart with
  | [] => 0%Q
  | item :: rest =>
      (Product.sale_price (product item) * inject_Z (quantity item)
       + lineTotals rest)%Q
  end.

(** The product identifiers of the lines of a cart, in order. *)
Definition lineIds (cart : Cart) : list string :=
  map (fun c => Product.id (product c)) cart.

(** The cart invariant: at most one line per product. *)
Definition uniqueLines (cart : Cart) : Prop := NoDup (lineIds cart).

(** [setQuantity pid f c] is line [c] with its quantity replaced by [f] of
    it when [c] is the line of product [pid], and [c] itself otherwise. *)
Definition setQuantity (pid : string) (f : Z -> Z) (c : CartItem) : CartItem :=
  if PDV.same_product pid c then mkCartItem (product c) (f (quantity c)) else c.

(** The sum of the amounts of a schedule. *)
Fixpoint sumAmounts (rows : list Installment.insert) : Q :=
  match rows with
  | [] => 0%Q
  | r :: rest => (Installment.new_amount r + sumAmounts rest)%Q
  end.

(** Row [i] (counted from 1) of the schedule the specification describes for
    a sale: number [i], the given amount, due [i] months after [now],
    pending. *)
Definition scheduleRow (sale_id : string) (amount : Q) (now : Js.Date) (i : Z)
  : Installment.insert :=
  Installment.mkInsert sale_id i amount
    (Js.toISODate (Js.setMonth now (Js.getMonth now + i)))
    Installment.pending.

(** The stock loop of [finalizeSale], the same in both revisions, and what
    it writes when no call fails: for every line, in cart order, the stock
    the line carries less the quantity of the line. *)
Definition stockWrites (be : Backend) (cart : Cart) : Call unit :=
  forEach
    (fun item =>
       request be (UpdateStock (Product.id (product item)))
               (Db.update_stock (Product.id (product item))
                  (Product.stock_quantity (product item) - quantity item)))
    cart.

Definition applyStock (cart : Cart) (db : Db.t) : Db.t :=
  fold_left
    (fun d item =>
       Db.update_stock (Product.id (product item))
                       (Product.stock_quantity (product item) - quantity item) d)
    cart db.

(** The shape the [try] block has in both revisions: the sale, its items,
    the stock loop, and the instalment rows when [withRows] holds. *)
Definition checkout (be : Backend) (sale : Sale.t) (cart : Cart)
           (withRows : bool) (rows : list Installment.insert) : Call string :=
  _ <- request be InsertSale (Db.insert_sale sale) ;;
  _ <- request be InsertSaleItems
         (Db.insert_sale_items (PDV.saleItems (Sale.id sale) cart)) ;;
  _ <- stockWrites be cart ;;
  _ <- (if withRows
        then request be InsertInstallments
               (Db.insert_installments (installment_uuid be) rows)
        else ret tt) ;;
  ret (Sale.id sale).

(** The store a checkout leaves when every call succeeds. *)
Definition checkedOut (be : Backend) (sale : Sale.t) (cart : Cart)
           (withRows : bool) (rows : list Installment.insert) (db : Db.t) : Db.t :=
  let db3 := applyStock cart
               (Db.insert_sale_items (PDV.saleItems (Sale.id sale) cart)
                  (Db.insert_sale sale db)) in
  if withRows then Db.insert_installments (installment_uuid be) rows db3 else db3.

(** [wantsRows st]: the condition under which [finalizeSale] builds
    instalment rows. *)
Definition wantsRows (st : State.t) : bool :=
  PaymentMethod_eqb (State.paymentMethod st) installment
  && (State.installments st >? 1).


(** What a finished sale leaves as the stock of the product of a cart line,
    for a product the store has: the stock the line carries (the snapshot
    taken when the products were loaded) less the quantity sold. *)
Definition stockPolicy (st : State.t) (db db' : Db.t) : Prop :=
  forall item before,
    In item (State.cart st) ->
    Db.stock_of (Product.id (product item)) db = Some before ->
    Db.stock_of (Product.id (product item)) db'
    = Some (Product.stock_quantity (product item) - quantity item).

(** An instalment row of the store once marked as paid on day [d]. *)
Definition paidOn (d : Js.IsoDate) (r : Installment.t) : Installment.t :=
  Installment.mk (Installment.id r) (Installment.sale_id r)
                 (Installment.installment_number r) (Installment.amount r)
                 (Installment.due_date r) (Some d) (Some Installment.paid).




(** [allDigits s]: every character of [s] is a decimal digit. *)
Fixpoint allDigits (s : string) : bool :=
  match s with
  | EmptyString => true
  | String c rest => Masks.isDigit c && allDigits rest
  end.

(** [cartWithin products cart]: every line carries a product as the page
    loaded it, in a quantity of at least one and at most the stock loaded
    with it. *)
Definition cartWithin (products : list Product.t) (cart : Cart) : Prop :=
  Forall (fun c =>
            find (fun p => (Product.id p =? Product.id (product c))%string) products
            = Some (product c)
            /\ 0 < quantity c <= Product.stock_quantity (product c))
         cart.

(** [pricedCart cart]: no line has a negative price or quantity. *)
Definition pricedCart (cart : Cart) : Prop :=
  Forall (fun c => (0 <= Product.sale_price (product c))%Q /\ 0 <= quantity c) cart.

(** [grows db db']: [db'] has every row of [db] in [sales], [sale_items]
    and [installments], in place, with new rows only after them, and the
    same products in the same order, differing at most in their stock. *)
Definition grows (db db' : Db.t) : Prop :=
  (exists rows, Db.sales db' = Db.sales db ++ rows)
  /\ (exists rows, Db.sale_items db' = Db.sale_items db ++ rows)
  /\ (exists rows, Db.installments db' = Db.installments db ++ rows)
  /\ map (fun p => (Product.id p, Product.code p, Product.name p,
                    Product.sale_price p, Product.active p)) (Db.products db')
     = map (fun p => (Product.id p, Product.code p, Product.name p,
                      Product.sale_price p, Product.active p)) (Db.products db).

(** The sum of the [total_price] column of sale items. *)
Fixpoint sumTotalPrice (items : list SaleItem.t) : Q :=
  match items with
  | [] => 0%Q
  | i :: rest => (SaleItem.total_price i + sumTotalPrice rest)%Q
  end.

(** The sum of the [amount] column of instalment rows. *)
Fixpoint sumStored (rows : list Installment.t) : Q :=
  match rows with
  | [] => 0%Q
  | r :: rest => (Installment.amount r + sumStored rest)%Q
  end.

(** The sale item that a cart line becomes under sale [sid]. *)
Definition itemOfLine (sid : string) (c : CartItem) (i : SaleItem.t) : Prop :=
  SaleItem.sale_id i = sid
  /\ SaleItem.product_id i = Product.id (product c)
  /\ SaleItem.quantity i = quantity c
  /\ SaleItem.unit_price i = Product.sale_price (product c)
  /\ (SaleItem.total_price i
      == Product.sale_price (product c) * inject_Z (quantity c))%Q.

(** * Properties *)

(** ** Totals *)

Lemma fold_subtotal_shift (cart : Cart) (acc : Q) :
  (fold_left
     (fun sum item => sum + Product.sale_price (product item) * inject_Z (quantity item))
     cart acc == acc + lineTotals cart)%Q.
Proof.
  revert acc; induction cart as [|item rest IH]; intros acc; simpl.
  - ring.
  - rewrite IH. ring.
Qed.

Lemma subtotal_lineTotals (cart : Cart) :
  (PDV.subtotal cart == lineTotals cart)%Q.
Proof.
  unfold PDV.subtotal. rewrite fold_subtotal_shift. ring.
Qed.

Lemma Qmax_0_nonneg (x : Q) : (0 <= Qmax 0 x)%Q.
Proof. apply Q.le_max_l. Qed.

(** The reworked page computes the total the specification asks for: the
    subtotal less the discount, floored at zero; a discount above the
    subtotal gives a total of zero and no error. *)
Lemma total_clamped (cart : Cart) (d : Q) :
  (PDV.total cart d == Qmax 0 (lineTotals cart - d))%Q
  /\ (0 <= PDV.total cart d)%Q
  /\ (lineTotals cart <= d -> PDV.total cart d == 0)%Q.
Proof.
  unfold PDV.total.
  assert (E : (PDV.subtotal cart - d == lineTotals cart - d)%Q)
    by (rewrite subtotal_lineTotals; reflexivity).
  split; [| split].
  - rewrite E. reflexivity.
  - apply Qmax_0_nonneg.
  - intros H. rewrite E. apply Q.max_l. lra.
Qed.

Lemma getTotal_lineTotals (cart : Cart) (d : Q) :
  (PDVLegacy.getTotal cart d == lineTotals cart - d)%Q.
Proof.
  unfold PDVLegacy.getTotal. rewrite fold_subtotal_shift. ring.
Qed.

(** C1 -- the total is max(0, subtotal - discount) and never negative.  The
    reworked page meets this ([total_clamped]); [getTotal] of the legacy page
    has no floor: for one line of 50.00 and a discount of 65.00 it returns
    -15.00, where the floor gives 0. *)
Theorem getTotal_legacy_negative :
  let cart := [mkCartItem (Product.mk "P1" "001" "Camisa" 50 5 true) 1] in
  (PDVLegacy.getTotal cart 65 == -15)%Q
  /\ (Qmax 0 (lineTotals cart - 65) == 0)%Q
  /\ ~ (0 <= PDVLegacy.getTotal cart 65)%Q
  /\ (PDV.total cart 65 == 0)%Q.
Proof.
  cbv zeta. repeat split; try reflexivity.
  intros H. vm_compute in H. apply H. reflexivity.
Qed.

(** ** Cart lines *)

(** Decides the integer comparisons that guard a handler, closing the
    branches the hypotheses rule out. *)
Ltac run_guards :=
  repeat match goal with
         | |- context [Z.leb ?a ?b] => destruct (Z.leb_spec a b); try lia
         | |- context [Z.gtb ?a ?b] => destruct (Z.gtb_spec a b); try lia
         end.

Lemma same_product_true (pid : string) (c : CartItem) :
  PDV.same_product pid c = true <-> Product.id (product c) = pid.
Proof. unfold PDV.same_product. apply String.eqb_eq. Qed.

Lemma same_product_false (pid : string) (c : CartItem) :
  PDV.same_product pid c = false <-> Product.id (product c) <> pid.
Proof. unfold PDV.same_product. apply String.eqb_neq. Qed.

Lemma in_lineIds (c : CartItem) (cart : Cart) :
  In c cart -> In (Product.id (product c)) (lineIds cart).
Proof.
  intros H. unfold lineIds.
  apply (in_map (fun c => Product.id (product c))). exact H.
Qed.

Lemma no_line_absent (pid : string) (cart : Cart) :
  ~ In pid (lineIds cart) ->
  find (PDV.same_product pid) cart = None
  /\ filter (PDV.same_product pid) cart = [].
Proof.
  induction cart as [|c rest IH]; simpl; intros H; [split; reflexivity|].
  destruct (PDV.same_product pid c) eqn:S.
  - apply same_product_true in S. tauto.
  - apply IH. tauto.
Qed.

(** In a cart with one line per product, [find] returns the line of the
    product and [filter] returns that line alone. *)
Lemma find_unique_line (cart : Cart) (e : CartItem) (pid : string) :
  uniqueLines cart -> In e cart -> Product.id (product e) = pid ->
  find (PDV.same_product pid) cart = Some e
  /\ filter (PDV.same_product pid) cart = [e].
Proof.
  unfold uniqueLines.
  induction cart as [|c rest IH]; intros U I E; simpl in *.
  - contradiction.
  - inversion U as [|? ? Hnotin Hrest]; subst.
    destruct (PDV.same_product (Product.id (product e)) c) eqn:S.
    + apply same_product_true in S.
      destruct I as [-> | I].
      * split; [reflexivity|]. f_equal.
        apply no_line_absent. exact Hnotin.
      * exfalso. apply Hnotin. rewrite S. apply in_lineIds. exact I.
    + apply same_product_false in S.
      destruct I as [-> | I]; [congruence|].
      apply IH; auto.
Qed.

Lemma setQuantity_id (pid : string) (f : Z -> Z) (c : CartItem) :
  Product.id (product (setQuantity pid f c)) = Product.id (product c).
Proof. unfold setQuantity. destruct (PDV.same_product pid c); reflexivity. Qed.

Lemma same_product_setQuantity (pid pid' : string) (f : Z -> Z) (c : CartItem) :
  PDV.same_product pid' (setQuantity pid f c) = PDV.same_product pid' c.
Proof. unfold PDV.same_product. rewrite setQuantity_id. reflexivity. Qed.

Lemma filter_same_setQuantity (pid : string) (f : Z -> Z) (cart : Cart) :
  filter (PDV.same_product pid) (map (setQuantity pid f) cart)
  = map (fun c => mkCartItem (product c) (f (quantity c)))
        (filter (PDV.same_product pid) cart).
Proof.
  induction cart as [|c rest IH]; simpl; [reflexivity|].
  rewrite same_product_setQuantity.
  destruct (PDV.same_product pid c) eqn:S; simpl; rewrite IH; [|reflexivity].
  unfold setQuantity. rewrite S. reflexivity.
Qed.

Lemma filter_others_setQuantity (pid : string) (f : Z -> Z) (cart : Cart) :
  filter (fun c => negb (PDV.same_product pid c)) (map (setQuantity pid f) cart)
  = filter (fun c => negb (PDV.same_product pid c)) cart.
Proof.
  induction cart as [|c rest IH]; simpl; [reflexivity|].
  rewrite same_product_setQuantity.
  destruct (PDV.same_product pid c) eqn:S; simpl; rewrite IH; [reflexivity|].
  unfold setQuantity. rewrite S. reflexivity.
Qed.

(** Where the product has no line, rewriting its line is the identity. *)
Lemma map_setQuantity_absent (pid : string) (f : Z -> Z) (cart : Cart) :
  ~ In pid (lineIds cart) -> map (setQuantity pid f) cart = cart.
Proof.
  induction cart as [|c rest IH]; simpl; intros H; [reflexivity|].
  rewrite IH by tauto. f_equal.
  unfold setQuantity.
  destruct (PDV.same_product pid c) eqn:S; [|reflexivity].
  apply same_product_true in S. tauto.
Qed.

Lemma filter_others_no_line (pid : string) (cart : Cart) :
  ~ In pid (lineIds (filter (fun c => negb (PDV.same_product pid c)) cart)).
Proof.
  unfold lineIds. rewrite in_map_iff. intros [c [E I]].
  apply filter_In in I. destruct I as [_ N].
  apply negb_true_iff, same_product_false in N. contradiction.
Qed.

(** C3 -- adding a product that already has a line.  With one line per
    product, the line [e] of the product at quantity q1 and q2 > 0 more
    units: if q1 + q2 is within the stock of the product the cart keeps its
    length, the product has the single line of quantity q1 + q2 and the other
    lines are as they were; if q1 + q2 is above the stock the toast is
    "Estoque insuficiente" and the cart is the one passed in.  The legacy
    page adds one unit at a time and agrees with the reworked page at
    q2 = 1. *)
Theorem addProductToCart_existing_line
        (cart : Cart) (p : Product.t) (e : CartItem) (q2 : Z) :
  uniqueLines cart ->
  In e cart ->
  Product.id (product e) = Product.id p ->
  0 < q2 ->
  (quantity e + q2 <= Product.stock_quantity p ->
   snd (PDV.addProductToCart cart p q2) = Some Added
   /\ List.length (fst (PDV.addProductToCart cart p q2)) = List.length cart
   /\ filter (PDV.same_product (Product.id p)) (fst (PDV.addProductToCart cart p q2))
      = [mkCartItem (product e) (quantity e + q2)]
   /\ filter (fun c => negb (PDV.same_product (Product.id p) c))
             (fst (PDV.addProductToCart cart p q2))
      = filter (fun c => negb (PDV.same_product (Product.id p) c)) cart)
  /\ (Product.stock_quantity p < quantity e + q2 ->
      PDV.addProductToCart cart p q2
      = (cart, Some (InsufficientStock (Product.stock_quantity p))))
  /\ PDVLegacy.addToCart cart p = PDV.addProductToCart cart p 1.
Proof.
  intros U I E Q.
  destruct (find_unique_line cart e (Product.id p) U I E) as [F L].
  split; [| split].
  - intros S.
    unfold PDV.addProductToCart. rewrite F. run_guards.
    change (map _ cart) with (map (setQuantity (Product.id p) (fun q => q + q2)) cart).
    cbn [fst snd].
    split; [reflexivity|]. split; [apply length_map|]. split.
    + rewrite filter_same_setQuantity, L. reflexivity.
    + apply filter_others_setQuantity.
  - intros S.
    unfold PDV.addProductToCart. rewrite F. run_guards.
    reflexivity.
  - unfold PDVLegacy.addToCart, PDV.addProductToCart, PDVLegacy.same_product.
    cbn [Z.leb Z.compare]. rewrite F.
    rewrite Z.geb_leb, Z.gtb_ltb.
    destruct (Z.leb_spec (Product.stock_quantity p) (quantity e));
      destruct (Z.ltb_spec (Product.stock_quantity p) (quantity e + 1));
      try lia; reflexivity.
Qed.

Lemma addProductToCart_existing_line_witness :
  let p := Product.mk "P1" "001" "Camisa" 50 5 true in
  let e := mkCartItem p 2 in
  (snd (PDV.addProductToCart [e] p 3) = Some Added
   /\ List.length (fst (PDV.addProductToCart [e] p 3)) = 1%nat
   /\ filter (PDV.same_product "P1") (fst (PDV.addProductToCart [e] p 3))
      = [mkCartItem p 5]
   /\ filter (fun c => negb (PDV.same_product "P1" c))
             (fst (PDV.addProductToCart [e] p 3)) = [])
  /\ PDVLegacy.addToCart [e] p = PDV.addProductToCart [e] p 1.
Proof.
  cbv zeta.
  pose (p := Product.mk "P1" "001" "Camisa" 50 5 true).
  assert (U : uniqueLines [mkCartItem p 2]).
  { unfold uniqueLines. simpl. constructor; [simpl; tauto | constructor]. }
  destruct (addProductToCart_existing_line [mkCartItem p 2] p (mkCartItem p 2) 3
              U (or_introl eq_refl) eq_refl eq_refl) as [A [_ C]].
  split; [apply A; simpl; lia | exact C].
Defined.

Lemma updateQuantity_legacy_same (products : list Product.t) (cart : Cart)
      (pid : string) (newQty : Z) :
  PDVLegacy.updateQuantity products cart pid newQty
  = PDV.updateItemQty products cart pid newQty.
Proof. reflexivity. Qed.

(** C4 -- changing the quantity of a product that has a line [e].  A new
    quantity of zero or less removes every line of the product and raises no
    toast; a new quantity above the (non-negative) stock the page holds for
    the product raises "Estoque insuficiente" and returns the cart passed in;
    a new quantity from 1 up to that stock puts the new quantity on the line,
    at the position it had, every other line staying as it was.  The legacy
    page does the same. *)
Theorem updateItemQty_existing_line
        (products : list Product.t) (cart : Cart) (e : CartItem)
        (pid : string) (newQty : Z) (prod : Product.t) :
  In e cart ->
  Product.id (product e) = pid ->
  find (fun p => (Product.id p =? pid)%string) products = Some prod ->
  0 <= Product.stock_quantity prod ->
  (newQty <= 0 ->
   snd (PDV.updateItemQty products cart pid newQty) = None
   /\ ~ In pid (lineIds (fst (PDV.updateItemQty products cart pid newQty)))
   /\ fst (PDV.updateItemQty products cart pid newQty)
      = filter (fun c => negb (PDV.same_product pid c)) cart)
  /\ (Product.stock_quantity prod < newQty ->
      PDV.updateItemQty products cart pid newQty
      = (cart, Some (InsufficientStock (Product.stock_quantity prod))))
  /\ (0 < newQty <= Product.stock_quantity prod ->
      snd (PDV.updateItemQty products cart pid newQty) = None
      /\ In (mkCartItem (product e) newQty)
            (fst (PDV.updateItemQty products cart pid newQty))
      /\ (forall i,
             nth_error (fst (PDV.updateItemQty products cart pid newQty)) i
             = option_map (setQuantity pid (fun _ => newQty)) (nth_error cart i)))
  /\ PDVLegacy.updateQuantity products cart pid newQty
     = PDV.updateItemQty products cart pid newQty.
Proof.
  intros I E F S.
  split; [| split; [| split]].
  - intros N. unfold PDV.updateItemQty. run_guards.
    cbn [fst snd]. split; [reflexivity|]. split; [|reflexivity].
    apply filter_others_no_line.
  - intros N. unfold PDV.updateItemQty. rewrite F. run_guards.
    reflexivity.
  - intros [N1 N2]. unfold PDV.updateItemQty. rewrite F. run_guards.
    change (map _ cart) with (map (setQuantity pid (fun _ => newQty)) cart).
    cbn [fst snd]. split; [reflexivity|]. split.
    + apply in_map_iff. exists e. split; [|exact I].
      unfold setQuantity.
      destruct (PDV.same_product pid e) eqn:Se; [reflexivity|].
      apply same_product_false in Se. contradiction.
    + intros i. apply nth_error_map.
  - apply updateQuantity_legacy_same.
Qed.

Lemma updateItemQty_existing_line_witness :
  let p := Product.mk "P1" "001" "Camisa" 50 5 true in
  let q := Product.mk "P2" "002" "Calca" 80 3 true in
  let cart := [mkCartItem p 2; mkCartItem q 1] in
  fst (PDV.updateItemQty [p; q] cart "P1" 0) = [mkCartItem q 1]
  /\ PDV.updateItemQty [p; q] cart "P1" 6 = (cart, Some (InsufficientStock 5))
  /\ In (mkCartItem p 4) (fst (PDV.updateItemQty [p; q] cart "P1" 4)).
Proof.
  cbv zeta.
  pose (p := Product.mk "P1" "001" "Camisa" 50 5 true).
  pose (q := Product.mk "P2" "002" "Calca" 80 3 true).
  pose (cart := [mkCartItem p 2; mkCartItem q 1]).
  assert (S : 0 <= Product.stock_quantity p) by (simpl; lia).
  split; [| split].
  - destruct (updateItemQty_existing_line [p; q] cart (mkCartItem p 2) "P1" 0 p
                (or_introl eq_refl) eq_refl eq_refl S) as [A _].
    destruct A as [_ [_ A]]; [lia|]. exact A.
  - destruct (updateItemQty_existing_line [p; q] cart (mkCartItem p 2) "P1" 6 p
                (or_introl eq_refl) eq_refl eq_refl S) as [_ [B _]].
    apply B. simpl. lia.
  - destruct (updateItemQty_existing_line [p; q] cart (mkCartItem p 2) "P1" 4 p
                (or_introl eq_refl) eq_refl eq_refl S) as [_ [_ [C _]]].
    apply C. simpl. lia.
Defined.

(** C10 -- changing the quantity of a product that has no line.  With a new
    quantity from 1 up to the stock the page holds for the product, the cart
    comes back as it was passed in and no toast is raised; no line is
    created.  The legacy page does the same. *)
Theorem updateItemQty_no_line
        (products : list Product.t) (cart : Cart) (pid : string)
        (newQty : Z) (prod : Product.t) :
  ~ In pid (lineIds cart) ->
  find (fun p => (Product.id p =? pid)%string) products = Some prod ->
  0 < newQty <= Product.stock_quantity prod ->
  PDV.updateItemQty products cart pid newQty = (cart, None)
  /\ PDVLegacy.updateQuantity products cart pid newQty = (cart, None).
Proof.
  intros A F [N1 N2].
  assert (H : PDV.updateItemQty products cart pid newQty = (cart, None)).
  { unfold PDV.updateItemQty. rewrite F. run_guards.
    change (map _ cart) with (map (setQuantity pid (fun _ => newQty)) cart).
    rewrite map_setQuantity_absent by exact A. reflexivity. }
  split; [exact H|].
  rewrite updateQuantity_legacy_same. exact H.
Qed.

Lemma updateItemQty_no_line_witness :
  let p := Product.mk "P1" "001" "Camisa" 50 5 true in
  let q := Product.mk "P2" "002" "Calca" 80 3 true in
  PDV.updateItemQty [p; q] [mkCartItem p 2] "P2" 3 = ([mkCartItem p 2], None)
  /\ PDVLegacy.updateQuantity [p; q] [mkCartItem p 2] "P2" 3 = ([mkCartItem p 2], None).
Proof.
  cbv zeta.
  apply (updateItemQty_no_line
           [Product.mk "P1" "001" "Camisa" 50 5 true;
            Product.mk "P2" "002" "Calca" 80 3 true]
           [mkCartItem (Product.mk "P1" "001" "Camisa" 50 5 true) 2]
           "P2" 3 (Product.mk "P2" "002" "Calca" 80 3 true)).
  - simpl. intros [H | []]. discriminate H.
  - reflexivity.
  - simpl. lia.
Defined.

(** ** Instalment schedule *)

(** Rounding to cents moves an amount by at most half a cent, and gives a
    whole number of cents. *)
Lemma toFixed2_cents (x : Q) :
  exists k : Z, (Js.toFixed2 x * 100 == inject_Z k)%Q.
Proof.
  unfold Js.toFixed2. destruct (Qle_bool 0 x).
  - exists (Js.roundHalfUp (x * 100)). field.
  - exists (- Js.roundHalfUp (- x * 100))%Z. rewrite inject_Z_opp. field.
Qed.

Lemma roundHalfUp_bounds (y : Q) :
  (inject_Z (Js.roundHalfUp y) <= y + (1 # 2)
   /\ y - (1 # 2) < inject_Z (Js.roundHalfUp y))%Q.
Proof.
  unfold Js.roundHalfUp.
  pose proof (Qfloor_le (y + (1 # 2))) as L.
  pose proof (Qlt_floor (y + (1 # 2))) as U.
  rewrite inject_Z_plus in U. change (inject_Z 1) with 1%Q in U.
  split; lra.
Qed.

Lemma toFixed2_nearest (x : Q) :
  (x - (1 # 200) <= Js.toFixed2 x <= x + (1 # 200))%Q.
Proof.
  unfold Js.toFixed2. destruct (Qle_bool 0 x).
  - destruct (roundHalfUp_bounds (x * 100)) as [L U].
    set (k := inject_Z (Js.roundHalfUp (x * 100))) in *.
    unfold Qdiv. change (/ 100)%Q with (1 # 100)%Q.
    split; lra.
  - destruct (roundHalfUp_bounds (- x * 100)) as [L U].
    set (k := inject_Z (Js.roundHalfUp (- x * 100))) in *.
    unfold Qdiv. change (/ 100)%Q with (1 # 100)%Q.
    split; lra.
Qed.

Lemma nth_error_range (A : Type) (f : Z -> A) (start n k : nat) :
  (k < n)%nat ->
  nth_error (map f (map Z.of_nat (seq start n))) k
  = Some (f (Z.of_nat (start + k))).
Proof.
  intros H. rewrite map_map, nth_error_map.
  rewrite (nth_error_nth' _ 0%nat) by (rewrite length_seq; exact H).
  rewrite seq_nth by exact H. reflexivity.
Qed.

Lemma sumAmounts_const (A : Type) (f : A -> Installment.insert) (a : Q) (l : list A) :
  (forall x, Installment.new_amount (f x) = a) ->
  (sumAmounts (map f l) == inject_Z (Z.of_nat (List.length l)) * a)%Q.
Proof.
  intros H. induction l as [|x l IH].
  - simpl. ring.
  - cbn [map sumAmounts List.length]. rewrite IH, H, Nat2Z.inj_succ.
    unfold Z.succ. rewrite inject_Z_plus. change (inject_Z 1) with 1%Q. ring.
Qed.


(** The schedule of the reworked page, for a count of at least two: one row
    per instalment, numbered from 1, each pending, each of the total divided
    by the count and rounded to cents (no row takes up the rounding drift,
    which stays within half a cent per row), row [i] due [i] months after the
    day of the sale. *)
Lemma installmentRows_schedule
      (sale_id : string) (total : Q) (n : Z) (now : Js.Date) :
  2 <= n ->
  let amount := Js.toFixed2 (total / inject_Z n) in
  let rows := PDV.installmentRows sale_id total n now in
  List.length rows = Z.to_nat n
  /\ (forall k, (k < Z.to_nat n)%nat ->
        nth_error rows k = Some (scheduleRow sale_id amount now (Z.of_nat k + 1)))
  /\ (total / inject_Z n - (1 # 200) <= amount <= total / inject_Z n + (1 # 200))%Q
  /\ (sumAmounts rows == inject_Z n * amount)%Q
  /\ (total - inject_Z n * (1 # 200) <= sumAmounts rows
      <= total + inject_Z n * (1 # 200))%Q.
Proof.
  intros N amount rows.
  assert (Hn : Z.of_nat (Z.to_nat n) = n) by (apply Z2Nat.id; lia).
  assert (Hsum : (sumAmounts rows == inject_Z n * amount)%Q).
  { unfold rows, PDV.installmentRows. rewrite sumAmounts_const with (a := amount).
    - rewrite length_map, length_seq, Hn. reflexivity.
    - reflexivity. }
  pose proof (toFixed2_nearest (total / inject_Z n)) as B. fold amount in B.
  split; [| split; [| split; [| split]]].
  - unfold rows, PDV.installmentRows. rewrite !length_map, length_seq. reflexivity.
  - intros k K. unfold rows, PDV.installmentRows.
    rewrite nth_error_range by exact K. reflexivity.
  - exact B.
  - exact Hsum.
  - rewrite Hsum.
    assert (P : (0 < inject_Z n)%Q).
    { change 0%Q with (inject_Z 0). rewrite <- Zlt_Qlt. lia. }
    assert (T : (total == inject_Z n * (total / inject_Z n))%Q).
    { field. intros H. rewrite H in P. apply (Qlt_irrefl 0). exact P. }
    set (x := (total / inject_Z n)%Q) in *.
    set (c := inject_Z n) in *.
    clearbody x c amount. destruct B as [B1 B2].
    rewrite T. split; nra.
Qed.

(** The example of the specification on the reworked page: 100.00 in three
    instalments from 15 January 2024 gives three pending rows of 33.33, due
    on the 15th of February, March and April, which add up to 99.99. *)
Lemma installmentRows_example :
  let now := Js.mkDate 2024 0 15 0 in
  PDV.installmentRows "S1" 100 3 now
  = [Installment.mkInsert "S1" 1 33.33 (Js.mkIso 2024 2 15) Installment.pending;
     Installment.mkInsert "S1" 2 33.33 (Js.mkIso 2024 3 15) Installment.pending;
     Installment.mkInsert "S1" 3 33.33 (Js.mkIso 2024 4 15) Installment.pending]
  /\ (sumAmounts (PDV.installmentRows "S1" 100 3 now) == 99.99)%Q.
Proof. cbv zeta. split; [vm_compute; reflexivity | reflexivity]. Qed.



(** ** Finalizing a sale *)

Lemma submit_checkout (be : Backend) (now : Js.Date) (u : string) (st : State.t) :
  PDV.submit be now u st
  = checkout be (PDV.saleRow be u st) (State.cart st) (wantsRows st)
      (PDV.installmentRows (sale_uuid be)
         (PDV.total (State.cart st) (State.discount st))
         (State.installments st) now).
Proof. reflexivity. Qed.

Lemma submit_legacy_checkout (be : Backend) (now : Js.Date) (u : string) (st : State.t) :
  PDVLegacy.submit be now u st
  = checkout be (PDVLegacy.saleRow be u st) (State.cart st) (wantsRows st)
      (PDVLegacy.installmentData (sale_uuid be)
         (PDVLegacy.getTotal (State.cart st) (State.discount st))
         (State.installments st) now).
Proof. reflexivity. Qed.

(** The stock loop either runs to the end, leaving [applyStock], or stops at
    the first call that fails. *)
Lemma stockWrites_done (be : Backend) (cart : Cart) (db db' : Db.t) :
  stockWrites be cart db = (db', Some tt) -> db' = applyStock cart db.
Proof.
  revert db. induction cart as [|item rest IH]; intros db H.
  - inversion H. reflexivity.
  - unfold stockWrites in H. cbn [forEach] in H. unfold bind at 1, request at 1 in H.
    destruct (fails be (UpdateStock (Product.id (product item)))); [discriminate H|].
    apply IH in H. exact H.
Qed.

Lemma stockWrites_no_failure (be : Backend) (cart : Cart) (db : Db.t) :
  (forall s, fails be s = false) ->
  stockWrites be cart db = (applyStock cart db, Some tt).
Proof.
  intros F. revert db. induction cart as [|item rest IH]; intros db.
  - reflexivity.
  - unfold stockWrites. cbn [forEach]. unfold bind at 1, request at 1.
    rewrite F. apply IH.
Qed.

Lemma checkout_done (be : Backend) (sale : Sale.t) (cart : Cart)
      (withRows : bool) (rows : list Installment.insert) (db db' : Db.t) (sid : string) :
  checkout be sale cart withRows rows db = (db', Some sid) ->
  sid = Sale.id sale /\ db' = checkedOut be sale cart withRows rows db.
Proof.
  unfold checkout, checkedOut, bind, request, ret.
  destruct (fails be InsertSale); [discriminate|].
  destruct (fails be InsertSaleItems); [discriminate|].
  destruct (stockWrites be cart _) as [db3 [[]|]] eqn:S; [|discriminate].
  apply stockWrites_done in S. subst db3.
  destruct withRows.
  - destruct (fails be InsertInstallments); [discriminate|].
    intros H. inversion H. split; reflexivity.
  - intros H. inversion H. split; reflexivity.
Qed.

Lemma checkout_no_failure (be : Backend) (sale : Sale.t) (cart : Cart)
      (withRows : bool) (rows : list Installment.insert) (db : Db.t) :
  (forall s, fails be s = false) ->
  checkout be sale cart withRows rows db
  = (checkedOut be sale cart withRows rows db, Some (Sale.id sale)).
Proof.
  intros F. unfold checkout, checkedOut, bind, request, ret.
  rewrite !F. rewrite stockWrites_no_failure by exact F.
  destruct withRows; reflexivity.
Qed.

(** The two guards of [finalizeSale] come first and touch nothing. *)
Lemma finalizeSale_inv (be : Backend) (now : Js.Date) (st : State.t)
      (db db' : Db.t) (sid : string) :
  PDV.finalizeSale be now st db = (db', SaleFinalized sid) ->
  exists u, State.cart st <> [] /\ State.user st = Some u
            /\ PDV.submit be now u st db = (db', Some sid).
Proof.
  unfold PDV.finalizeSale.
  destruct (State.cart st) as [|c rest] eqn:C; [discriminate|]. cbn [List.length Nat.eqb].
  destruct (State.user st) as [u|]; [|discriminate].
  destruct (PDV.submit be now u st db) as [d [s|]] eqn:S; [|discriminate].
  intros H. inversion H. subst. exists u.
  split; [discriminate | split; [reflexivity | exact S]].
Qed.

Lemma finalizeSale_legacy_inv (be : Backend) (now : Js.Date) (st : State.t)
      (db db' : Db.t) (sid : string) :
  PDVLegacy.finalizeSale be now st db = (db', SaleFinalized sid) ->
  exists u, State.cart st <> [] /\ State.user st = Some u
            /\ PDVLegacy.submit be now u st db = (db', Some sid).
Proof.
  unfold PDVLegacy.finalizeSale.
  destruct (State.cart st) as [|c rest] eqn:C; [discriminate|]. cbn [List.length Nat.eqb].
  destruct (State.user st) as [u|]; [|discriminate].
  destruct (PDVLegacy.submit be now u st db) as [d [s|]] eqn:S; [|discriminate].
  intros H. inversion H. subst. exists u.
  split; [discriminate | split; [reflexivity | exact S]].
Qed.

(** With a cart, a signed-in user and a store that answers every call, the
    sale is finalized. *)
Lemma finalizeSale_succeeds (be : Backend) (now : Js.Date) (st : State.t)
      (db : Db.t) (u : string) :
  State.cart st <> [] -> State.user st = Some u ->
  (forall s, fails be s = false) ->
  exists db', PDV.finalizeSale be now st db = (db', SaleFinalized (sale_uuid be))
              /\ PDVLegacy.finalizeSale be now st db
                 = (checkedOut be (PDVLegacy.saleRow be u st) (State.cart st)
                      (wantsRows st)
                      (PDVLegacy.installmentData (sale_uuid be)
                         (PDVLegacy.getTotal (State.cart st) (State.discount st))
                         (State.installments st) now) db,
                    SaleFinalized (sale_uuid be)).
Proof.
  intros C U F.
  unfold PDV.finalizeSale, PDVLegacy.finalizeSale.
  destruct (Nat.eqb_spec (List.length (State.cart st)) 0) as [L|_];
    [apply length_zero_iff_nil in L; contradiction|].
  rewrite U, submit_checkout, submit_legacy_checkout.
  rewrite !checkout_no_failure by exact F.
  eexists. split; reflexivity.
Qed.


Lemma applyStock_tables (cart : Cart) (db : Db.t) :
  Db.sales (applyStock cart db) = Db.sales db
  /\ Db.sale_items (applyStock cart db) = Db.sale_items db
  /\ Db.installments (applyStock cart db) = Db.installments db.
Proof.
  revert db. induction cart as [|item rest IH]; intros db; [repeat split|].
  unfold applyStock. cbn [fold_left].
  destruct (IH (Db.update_stock (Product.id (product item))
                  (Product.stock_quantity (product item) - quantity item) db))
    as [A [B C]].
  unfold applyStock in A, B, C. rewrite A, B, C. repeat split.
Qed.

Lemma checkedOut_sales (be : Backend) (sale : Sale.t) (cart : Cart)
      (withRows : bool) (rows : list Installment.insert) (db : Db.t) :
  Db.sales (checkedOut be sale cart withRows rows db) = Db.sales db ++ [sale].
Proof.
  unfold checkedOut.
  destruct withRows; cbn [Db.insert_installments Db.sales];
    rewrite (proj1 (applyStock_tables _ _)); reflexivity.
Qed.



(** C5 (as the code has it) -- the guards of [finalizeSale].  An empty cart
    raises "Carrinho vazio"; a cart with lines and no signed-in user raises
    "Usuario nao autenticado"; in both cases the store is returned as it was
    passed in, no call having been made.  Both revisions agree. *)
Theorem finalizeSale_guards (be : Backend) (now : Js.Date) (st : State.t) (db : Db.t) :
  (State.cart st = [] ->
   PDV.finalizeSale be now st db = (db, EmptyCart)
   /\ PDVLegacy.finalizeSale be now st db = (db, EmptyCart))
  /\ (State.cart st <> [] -> State.user st = None ->
      PDV.finalizeSale be now st db = (db, Unauthenticated)
      /\ PDVLegacy.finalizeSale be now st db = (db, Unauthenticated)).
Proof.
  unfold PDV.finalizeSale, PDVLegacy.finalizeSale. split.
  - intros ->. split; reflexivity.
  - intros C U.
    destruct (Nat.eqb_spec (List.length (State.cart st)) 0) as [L|_];
      [apply length_zero_iff_nil in L; contradiction|].
    rewrite U. split; reflexivity.
Qed.

Lemma finalizeSale_guards_witness :
  let be := mkBackend (fun _ => false) "S1" (fun _ => "I1"%string) in
  let now := Js.mkDate 2024 0 15 0 in
  let p := Product.mk "P1" "001" "Camisa" 50 5 true in
  let db := Db.mk [p] [] [] [] in
  PDV.finalizeSale be now (State.mk [] 0 cash 1 "" (Some "u1"%string)) db
  = (db, EmptyCart)
  /\ PDV.finalizeSale be now (State.mk [mkCartItem p 2] 0 cash 1 "" None) db
     = (db, Unauthenticated).
Proof.
  cbv zeta. split.
  - apply (finalizeSale_guards
             (mkBackend (fun _ => false) "S1" (fun _ => "I1"%string))
             (Js.mkDate 2024 0 15 0)
             (State.mk [] 0 cash 1 "" (Some "u1"%string))).
    reflexivity.
  - apply (finalizeSale_guards
             (mkBackend (fun _ => false) "S1" (fun _ => "I1"%string))
             (Js.mkDate 2024 0 15 0)
             (State.mk [mkCartItem (Product.mk "P1" "001" "Camisa" 50 5 true) 2]
                       0 cash 1 "" None)).
    + simpl. discriminate.
    + reflexivity.
Defined.

(** C5 as stated does not hold for a request that has neither lines nor a
    signed-in user: the empty cart is checked first, and the toast is
    "Carrinho vazio", not "Usuario nao autenticado". *)
Lemma finalizeSale_empty_cart_checked_first :
  let be := mkBackend (fun _ => false) "S1" (fun _ => "I1"%string) in
  let now := Js.mkDate 2024 0 15 0 in
  let st := State.mk [] 0 cash 1 "" None in
  let db := Db.mk [] [] [] [] in
  State.user st = None
  /\ PDV.finalizeSale be now st db = (db, EmptyCart)
  /\ PDVLegacy.finalizeSale be now st db = (db, EmptyCart)
  /\ snd (PDV.finalizeSale be now st db) <> Unauthenticated
  /\ snd (PDVLegacy.finalizeSale be now st db) <> Unauthenticated.
Proof. cbv zeta. repeat split; discriminate. Qed.



(** ** Stock after a sale *)

Lemma stock_of_update_stock (pid pid' : string) (q : Z) (db : Db.t) :
  Db.stock_of pid (Db.update_stock pid' q db)
  = if (pid' =? pid)%string
    then option_map (fun _ => q) (Db.stock_of pid db)
    else Db.stock_of pid db.
Proof.
  unfold Db.stock_of, Db.update_stock. cbn [Db.products].
  induction (Db.products db) as [|p ps IH]; cbn [map find].
  - destruct (pid' =? pid)%string; reflexivity.
  - destruct (Product.id p =? pid')%string eqn:A; cbn [Product.id].
    + apply String.eqb_eq in A. subst pid'.
      destruct (Product.id p =? pid)%string eqn:B; [reflexivity|].
      exact IH.
    + destruct (Product.id p =? pid)%string eqn:B; [|exact IH].
      apply String.eqb_eq in B. subst pid.
      rewrite String.eqb_sym, A. reflexivity.
Qed.

Lemma stock_of_applyStock_absent (pid : string) (cart : Cart) (db : Db.t) :
  ~ In pid (lineIds cart) ->
  Db.stock_of pid (applyStock cart db) = Db.stock_of pid db.
Proof.
  revert db. induction cart as [|c rest IH]; intros db H; [reflexivity|].
  unfold applyStock. cbn [fold_left]. fold (applyStock rest).
  simpl in H. rewrite IH by tauto. rewrite stock_of_update_stock.
  destruct (Product.id (product c) =? pid)%string eqn:E; [|reflexivity].
  apply String.eqb_eq in E. tauto.
Qed.

(** After the stock loop, the store holds for the product of each line what
    the loop wrote for that line, when lines are unique. *)
Lemma stock_of_applyStock (cart : Cart) (db : Db.t) (item : CartItem) (before : Z) :
  uniqueLines cart ->
  In item cart ->
  Db.stock_of (Product.id (product item)) db = Some before ->
  Db.stock_of (Product.id (product item)) (applyStock cart db)
  = Some (Product.stock_quantity (product item) - quantity item).
Proof.
  unfold uniqueLines. revert db before.
  induction cart as [|c rest IH]; intros db before U I B; [contradiction|].
  simpl in U. inversion U as [|? ? Hnotin Hrest]; subst.
  unfold applyStock. cbn [fold_left]. fold (applyStock rest).
  destruct I as [-> | I].
  - rewrite stock_of_applyStock_absent by exact Hnotin.
    rewrite stock_of_update_stock, String.eqb_refl, B. reflexivity.
  - apply (IH _ before Hrest I).
    rewrite stock_of_update_stock.
    destruct (Product.id (product c) =? Product.id (product item))%string eqn:E;
      [|exact B].
    apply String.eqb_eq in E. exfalso. apply Hnotin. rewrite E.
    apply in_lineIds. exact I.
Qed.

Lemma stock_of_checkedOut (be : Backend) (sale : Sale.t) (cart : Cart)
      (withRows : bool) (rows : list Installment.insert) (db : Db.t) (pid : string) :
  Db.stock_of pid (checkedOut be sale cart withRows rows db)
  = Db.stock_of pid (applyStock cart db).
Proof.
  assert (P : forall d,
             Db.products (applyStock cart d)
             = Db.products (applyStock cart (Db.mk (Db.products d) [] [] []))).
  { induction cart as [|c rest IH]; intros d; [reflexivity|].
    unfold applyStock. cbn [fold_left]. fold (applyStock rest).
    rewrite IH. symmetry. rewrite IH. reflexivity. }
  unfold checkedOut, Db.stock_of.
  destruct withRows; cbn [Db.insert_installments Db.products];
    rewrite P; symmetry; rewrite P; reflexivity.
Qed.

(** C7 (as the code has it) -- stock after a finished sale, in both
    revisions.  With one line per product, the store holds for the product of
    each line the stock the line carries less the quantity sold; this is the
    stock before the sale less the quantity sold whenever the line carries
    the stock the store held before the sale, and it is not negative whenever
    the quantity of the line is within the stock the line carries. *)
Theorem finalizeSale_stock
        (be : Backend) (now : Js.Date) (st : State.t) (db db' : Db.t) (sid : string) :
  uniqueLines (State.cart st) ->
  PDV.finalizeSale be now st db = (db', SaleFinalized sid)
  \/ PDVLegacy.finalizeSale be now st db = (db', SaleFinalized sid) ->
  stockPolicy st db db'
  /\ (forall item before,
         In item (State.cart st) ->
         Db.stock_of (Product.id (product item)) db = Some before ->
         (Product.stock_quantity (product item) = before ->
          Db.stock_of (Product.id (product item)) db' = Some (before - quantity item))
         /\ (quantity item <= Product.stock_quantity (product item) ->
             exists after,
               Db.stock_of (Product.id (product item)) db' = Some after
               /\ 0 <= after)).
Proof.
  intros U H.
  assert (P : stockPolicy st db db').
  { intros item before I B.
    destruct H as [H | H].
    - apply finalizeSale_inv in H. destruct H as [u [_ [_ H]]].
      rewrite submit_checkout in H. apply checkout_done in H. destruct H as [_ ->].
      rewrite stock_of_checkedOut. apply (stock_of_applyStock _ _ _ before); assumption.
    - apply finalizeSale_legacy_inv in H. destruct H as [u [_ [_ H]]].
      rewrite submit_legacy_checkout in H. apply checkout_done in H. destruct H as [_ ->].
      rewrite stock_of_checkedOut. apply (stock_of_applyStock _ _ _ before); assumption. }
  split; [exact P|].
  intros item before I B. rewrite (P item before I B). split.
  - intros <-. reflexivity.
  - intros Q. eexists. split; [reflexivity | lia].
Qed.

Lemma finalizeSale_stock_witness :
  let be := mkBackend (fun _ => false) "S1" (fun _ => "I1"%string) in
  let now := Js.mkDate 2024 0 15 0 in
  let p := Product.mk "P1" "001" "Camisa" 50 5 true in
  let db := Db.mk [p] [] [] [] in
  let st := State.mk [mkCartItem p 2] 0 cash 1 "" (Some "u1"%string) in
  Db.stock_of "P1" (fst (PDV.finalizeSale be now st db)) = Some (5 - 2).
Proof.
  cbv zeta.
  pose (be := mkBackend (fun _ => false) "S1" (fun _ => "I1"%string)).
  pose (p := Product.mk "P1" "001" "Camisa" 50 5 true).
  pose (st := State.mk [mkCartItem p 2] 0 cash 1 "" (Some "u1"%string)).
  assert (U : uniqueLines (State.cart st)).
  { unfold uniqueLines. simpl. constructor; [simpl; tauto | constructor]. }
  destruct (finalizeSale_stock be (Js.mkDate 2024 0 15 0) st (Db.mk [p] [] [] [])
              (fst (PDV.finalizeSale be (Js.mkDate 2024 0 15 0) st (Db.mk [p] [] [] [])))
              "S1" U (or_introl eq_refl)) as [_ C].
  destruct (C (mkCartItem p 2) 5 (or_introl eq_refl) eq_refl) as [A _].
  apply A. reflexivity.
Defined.

(** C7 as stated does not hold when the stock a line carries is not the
    stock the store holds: with 10 units in the store and a line loaded when
    there were 5, selling 2 leaves 3 in the store, not 10 - 2. *)
Lemma finalizeSale_stale_snapshot :
  let be := mkBackend (fun _ => false) "S1" (fun _ => "I1"%string) in
  let now := Js.mkDate 2024 0 15 0 in
  let loaded := Product.mk "P1" "001" "Camisa" 50 5 true in
  let stored := Product.mk "P1" "001" "Camisa" 50 10 true in
  let db := Db.mk [stored] [] [] [] in
  let st := State.mk [mkCartItem loaded 2] 0 cash 1 "" (Some "u1"%string) in
  snd (PDV.finalizeSale be now st db) = SaleFinalized "S1"
  /\ snd (PDVLegacy.finalizeSale be now st db) = SaleFinalized "S1"
  /\ Db.stock_of "P1" db = Some 10
  /\ Db.stock_of "P1" (fst (PDV.finalizeSale be now st db)) = Some 3
  /\ Db.stock_of "P1" (fst (PDVLegacy.finalizeSale be now st db)) = Some 3
  /\ Db.stock_of "P1" (fst (PDV.finalizeSale be now st db)) <> Some (10 - 2).
Proof. cbv zeta. repeat split. vm_compute. discriminate. Qed.

(** ** Instalments: marking as paid and the derived status *)

Lemma paidOn_id (d : Js.IsoDate) (r : Installment.t) :
  Installment.id (paidOn d r) = Installment.id r.
Proof. reflexivity. Qed.

Lemma update_installment_rows (iid : string) (d : Js.IsoDate) (db : Db.t) :
  Db.installments (Db.update_installment iid Installment.paid d db)
  = map (fun r => if (Installment.id r =? iid)%string then paidOn d r else r)
        (Db.installments db).
Proof. reflexivity. Qed.

Lemma update_installment_twice (iid : string) (d1 d2 : Js.IsoDate) (db : Db.t) :
  Db.update_installment iid Installment.paid d2
    (Db.update_installment iid Installment.paid d1 db)
  = Db.update_installment iid Installment.paid d2 db.
Proof.
  unfold Db.update_installment. cbn [Db.products Db.sales Db.sale_items Db.installments].
  f_equal. rewrite map_map. apply map_ext. intros r.
  destruct (Installment.id r =? iid)%string eqn:E; cbn [Installment.id];
    rewrite E; reflexivity.
Qed.

(** C8 -- marking an instalment as paid, in both revisions of the page.  On
    a store that answers, the call raises "Parcela marcada como paga" and
    the row of that id is paid, with the day of the call as payment date.  A
    second call on the same id is answered the same way (nothing looks at the
    status the row already has) and leaves the row paid, with the day of the
    second call; made on the same day it leaves the store as the first call
    left it.  The row of the page state is paid as well. *)
Theorem markAsPaid_twice
        (now1 now2 : Js.Date) (iid : string) (db : Db.t)
        (rows : list Installments.InstallmentRow) (r : Installment.t) :
  In r (Db.installments db) ->
  Installment.id r = iid ->
  exists db1 rows1 db2 rows2,
    Installments.markAsPaid false now1 iid db rows
    = (db1, rows1, Installments.MarkedPaid)
    /\ In (paidOn (Js.toISODate now1) r) (Db.installments db1)
    /\ Installments.markAsPaid false now2 iid db1 rows1
       = (db2, rows2, Installments.MarkedPaid)
    /\ In (paidOn (Js.toISODate now2) r) (Db.installments db2)
    /\ (forall r', In r' (Db.installments db2) -> Installment.id r' = iid ->
          Installment.status r' = Some Installment.paid
          /\ Installment.payment_date r' = Some (Js.toISODate now2))
    /\ (Js.toISODate now2 = Js.toISODate now1 -> db2 = db1)
    /\ (now2 = now1 -> rows2 = rows1)
    /\ (forall x, In x rows2 -> Installments.id x = iid ->
          Installments.status x = Some Installment.paid).
Proof.
  intros I E. unfold Installments.markAsPaid.
  do 4 eexists. split; [reflexivity|]. split; [|split; [reflexivity|]].
  - rewrite update_installment_rows. apply in_map_iff. exists r.
    rewrite E, String.eqb_refl. split; [reflexivity | exact I].
  - rewrite update_installment_twice. split; [|split; [|split]].
    + rewrite update_installment_rows. apply in_map_iff. exists r.
      rewrite E, String.eqb_refl. split; [reflexivity | exact I].
    + intros r' I' E'. rewrite update_installment_rows in I'.
      apply in_map_iff in I'. destruct I' as [r0 [R0 _]].
      destruct (Installment.id r0 =? iid)%string eqn:E0.
      * subst r'. split; reflexivity.
      * subst r'. apply String.eqb_neq in E0. contradiction.
    + intros D. rewrite D. reflexivity.
    + split.
      * intros ->. rewrite map_map. apply map_ext. intros x.
        destruct (Installments.id x =? iid)%string eqn:X; cbn [Installments.id];
          rewrite X; reflexivity.
      * intros x Ix Ex. apply in_map_iff in Ix. destruct Ix as [y [Y _]].
        destruct (Installments.id y =? iid)%string eqn:Ey.
        -- subst x. reflexivity.
        -- subst x. apply String.eqb_neq in Ey. contradiction.
Qed.

Lemma markAsPaid_twice_witness :
  let now := Js.mkDate 2024 1 20 36000000 in
  let r := Installment.mk "I1" "S1" 1 33.33 (Js.mkIso 2024 2 15) None
                          (Some Installment.pending) in
  let db := Db.mk [] [] [] [r] in
  exists db1 rows1 db2 rows2,
    Installments.markAsPaid false now "I1" db [] = (db1, rows1, Installments.MarkedPaid)
    /\ In (paidOn (Js.mkIso 2024 2 20) r) (Db.installments db1)
    /\ Installments.markAsPaid false now "I1" db1 rows1
       = (db2, rows2, Installments.MarkedPaid)
    /\ db2 = db1.
Proof.
  cbv zeta.
  destruct (markAsPaid_twice
              (Js.mkDate 2024 1 20 36000000) (Js.mkDate 2024 1 20 36000000) "I1"
              (Db.mk [] [] []
                 [Installment.mk "I1" "S1" 1 33.33 (Js.mkIso 2024 2 15) None
                                 (Some Installment.pending)])
              []
              (Installment.mk "I1" "S1" 1 33.33 (Js.mkIso 2024 2 15) None
                              (Some Installment.pending))
              (or_introl eq_refl) eq_refl)
    as [db1 [rows1 [db2 [rows2 [A [B [C [_ [_ [D _]]]]]]]]]].
  exists db1, rows1, db2, rows2.
  split; [exact A|]. split; [exact B|]. split; [exact C|]. apply D. reflexivity.
Defined.


Lemma status_is_iff (s : Installment.Status) (r : Installments.InstallmentRow) :
  Installments.status_is s r = true <-> Installments.status r = Some s.
Proof.
  unfold Installments.status_is.
  destruct (Installments.status r) as [s'|]; [|split; discriminate].
  destruct s', s; simpl; split; intros H; congruence.
Qed.




(** ** Input masks *)

Lemma str_app_assoc (a b c : string) : ((a ++ b) ++ c = a ++ (b ++ c))%string.
Proof. induction a as [|x a IH]; simpl; [reflexivity | rewrite IH; reflexivity]. Qed.

Lemma str_app_nil_r (a : string) : (a ++ "" = a)%string.
Proof. induction a as [|x a IH]; simpl; [reflexivity | rewrite IH; reflexivity]. Qed.

Lemma str_length_app (a b : string) :
  String.length (a ++ b) = (String.length a + String.length b)%nat.
Proof. induction a as [|x a IH]; simpl; [reflexivity | rewrite IH; reflexivity]. Qed.

Lemma onlyDigits_app (a b : string) :
  Masks.onlyDigits (a ++ b) = (Masks.onlyDigits a ++ Masks.onlyDigits b)%string.
Proof.
  induction a as [|x a IH]; simpl; [reflexivity|].
  destruct (Masks.isDigit x); simpl; rewrite IH; reflexivity.
Qed.

Lemma allDigits_onlyDigits (v : string) : allDigits (Masks.onlyDigits v) = true.
Proof.
  induction v as [|x v IH]; simpl; [reflexivity|].
  destruct (Masks.isDigit x) eqn:E; simpl; [rewrite E|]; exact IH.
Qed.

Lemma onlyDigits_allDigits (s : string) :
  allDigits s = true -> Masks.onlyDigits s = s.
Proof.
  induction s as [|x s IH]; simpl; [reflexivity|].
  intros H. apply andb_true_iff in H. destruct H as [D R].
  rewrite D, (IH R). reflexivity.
Qed.

Lemma allDigits_app (a b : string) :
  allDigits (a ++ b) = allDigits a && allDigits b.
Proof.
  induction a as [|x a IH]; simpl; [reflexivity|].
  rewrite IH, andb_assoc. reflexivity.
Qed.

Lemma allDigits_take (n : nat) (s : string) :
  allDigits s = true -> allDigits (Masks.take n s) = true.
Proof.
  revert s. induction n as [|n IH]; intros [|x s]; simpl; try reflexivity.
  intros H. apply andb_true_iff in H. destruct H as [D R].
  rewrite D, (IH s R). reflexivity.
Qed.

Lemma allDigits_drop (n : nat) (s : string) :
  allDigits s = true -> allDigits (Masks.drop n s) = true.
Proof.
  revert s. induction n as [|n IH]; intros [|x s]; simpl; try (intros H; exact H).
  intros H. apply andb_true_iff in H. destruct H as [_ R]. exact (IH s R).
Qed.

Lemma take_drop (n : nat) (s : string) :
  (Masks.take n s ++ Masks.drop n s = s)%string.
Proof.
  revert s. induction n as [|n IH]; intros [|x s]; simpl; try reflexivity.
  rewrite IH. reflexivity.
Qed.

Lemma drop_drop (n m : nat) (s : string) :
  Masks.drop n (Masks.drop m s) = Masks.drop (m + n) s.
Proof.
  revert s. induction m as [|m IH]; intros s.
  - destruct s; reflexivity.
  - destruct s as [|x s]; simpl; [destruct n; reflexivity | apply IH].
Qed.

Lemma length_take (n : nat) (s : string) :
  String.length (Masks.take n s) = Nat.min n (String.length s).
Proof.
  revert s. induction n as [|n IH]; intros [|x s]; simpl; try reflexivity.
  rewrite IH. reflexivity.
Qed.

Lemma length_drop (n : nat) (s : string) :
  String.length (Masks.drop n s) = (String.length s - n)%nat.
Proof.
  revert s. induction n as [|n IH]; intros [|x s]; simpl; try reflexivity.
  apply IH.
Qed.

Lemma take_all (n : nat) (s : string) :
  (String.length s <= n)%nat -> Masks.take n s = s.
Proof.
  revert s. induction n as [|n IH]; intros [|x s]; simpl; try reflexivity.
  - intros H. lia.
  - intros H. rewrite IH by lia. reflexivity.
Qed.

Lemma take_take (n : nat) (s : string) :
  Masks.take n (Masks.take n s) = Masks.take n s.
Proof. apply take_all. rewrite length_take. lia. Qed.


Lemma sep_dot : Masks.onlyDigits "." = ""%string.
Proof. reflexivity. Qed.

Lemma sep_dash : Masks.onlyDigits "-" = ""%string.
Proof. reflexivity. Qed.

Lemma sep_slash : Masks.onlyDigits "/" = ""%string.
Proof. reflexivity. Qed.

Lemma sep_open : Masks.onlyDigits "(" = ""%string.
Proof. reflexivity. Qed.

Lemma sep_close : Masks.onlyDigits ") " = ""%string.
Proof. reflexivity. Qed.

Lemma piece (a b c : nat) (d : string) :
  c = (a + b)%nat ->
  (Masks.take b (Masks.drop a d) ++ Masks.drop c d = Masks.drop a d)%string.
Proof. intros ->. rewrite <- drop_drop. apply take_drop. Qed.

(** Reads the digits back out of a formatted string of digits [d]. *)
Ltac strip D :=
  repeat rewrite onlyDigits_app;
  rewrite ?sep_dot, ?sep_dash, ?sep_slash, ?sep_open, ?sep_close;
  cbn [append];
  repeat match goal with
         | |- context [Masks.onlyDigits (Masks.take ?n ?x)] =>
             rewrite (onlyDigits_allDigits (Masks.take n x))
               by (repeat first [apply allDigits_take | apply allDigits_drop]; exact D)
         | |- context [Masks.onlyDigits (Masks.drop ?n ?x)] =>
             rewrite (onlyDigits_allDigits (Masks.drop n x))
               by (repeat first [apply allDigits_take | apply allDigits_drop]; exact D)
         end.

(** Counts the characters of a formatted string. *)
Ltac count_mask :=
  repeat rewrite str_length_app; repeat rewrite length_take;
  repeat rewrite length_drop; cbn [String.length]; lia.


Lemma formatCPF_digits (value : string) :
  Masks.onlyDigits (Masks.formatCPF value) = Masks.take 11 (Masks.onlyDigits value)
  /\ (String.length (Masks.formatCPF value) <= 14)%nat.
Proof.
  unfold Masks.formatCPF, Masks.slice.
  change (Masks.drop 0 (Masks.onlyDigits value)) with (Masks.onlyDigits value).
  cbn [Nat.sub].
  set (d := Masks.take 11 (Masks.onlyDigits value)).
  assert (D : allDigits d = true) by (apply allDigits_take, allDigits_onlyDigits).
  assert (L : (String.length d <= 11)%nat) by (unfold d; rewrite length_take; lia).
  clearbody d. cbv zeta. change (Masks.drop 0 d) with d.
  destruct (Nat.leb_spec (String.length d) 3);
    [split; [apply onlyDigits_allDigits; exact D | lia]|].
  destruct (Nat.leb_spec (String.length d) 6).
  { split; [strip D; apply take_drop | count_mask]. }
  destruct (Nat.leb_spec (String.length d) 9).
  { split; [strip D; rewrite (piece 3 3 6 d eq_refl); apply take_drop | count_mask]. }
  split; [|count_mask].
  strip D. rewrite (take_all 2 (Masks.drop 9 d)) by (rewrite length_drop; lia).
  rewrite (piece 6 3 9 d eq_refl), (piece 3 3 6 d eq_refl). apply take_drop.
Qed.

Lemma formatCNPJ_digits (value : string) :
  Masks.onlyDigits (Masks.formatCNPJ value) = Masks.take 14 (Masks.onlyDigits value)
  /\ (String.length (Masks.formatCNPJ value) <= 18)%nat.
Proof.
  unfold Masks.formatCNPJ, Masks.slice.
  change (Masks.drop 0 (Masks.onlyDigits value)) with (Masks.onlyDigits value).
  cbn [Nat.sub].
  set (d := Masks.take 14 (Masks.onlyDigits value)).
  assert (D : allDigits d = true) by (apply allDigits_take, allDigits_onlyDigits).
  assert (L : (String.length d <= 14)%nat) by (unfold d; rewrite length_take; lia).
  clearbody d. cbv zeta. change (Masks.drop 0 d) with d.
  destruct (Nat.leb_spec (String.length d) 2);
    [split; [apply onlyDigits_allDigits; exact D | lia]|].
  destruct (Nat.leb_spec (String.length d) 5).
  { split; [strip D; apply take_drop | count_mask]. }
  destruct (Nat.leb_spec (String.length d) 8).
  { split; [strip D; rewrite (piece 2 3 5 d eq_refl); apply take_drop | count_mask]. }
  destruct (Nat.leb_spec (String.length d) 12).
  { split; [|count_mask].
    strip D. rewrite (piece 5 3 8 d eq_refl), (piece 2 3 5 d eq_refl). apply take_drop. }
  split; [|count_mask].
  strip D. rewrite (take_all 2 (Masks.drop 12 d)) by (rewrite length_drop; lia).
  rewrite (piece 8 4 12 d eq_refl), (piece 5 3 8 d eq_refl), (piece 2 3 5 d eq_refl).
  apply take_drop.
Qed.

Lemma formatCPF_ext (x y : string) :
  Masks.take 11 (Masks.onlyDigits x) = Masks.take 11 (Masks.onlyDigits y) ->
  Masks.formatCPF x = Masks.formatCPF y.
Proof.
  intros H. unfold Masks.formatCPF, Masks.slice.
  change (Masks.drop 0 (Masks.onlyDigits x)) with (Masks.onlyDigits x).
  change (Masks.drop 0 (Masks.onlyDigits y)) with (Masks.onlyDigits y).
  cbn [Nat.sub]. rewrite H. reflexivity.
Qed.

Lemma formatCNPJ_ext (x y : string) :
  Masks.take 14 (Masks.onlyDigits x) = Masks.take 14 (Masks.onlyDigits y) ->
  Masks.formatCNPJ x = Masks.formatCNPJ y.
Proof.
  intros H. unfold Masks.formatCNPJ, Masks.slice.
  change (Masks.drop 0 (Masks.onlyDigits x)) with (Masks.onlyDigits x).
  change (Masks.drop 0 (Masks.onlyDigits y)) with (Masks.onlyDigits y).
  cbn [Nat.sub]. rewrite H. reflexivity.
Qed.

(** X2 -- [formatCPF] loses no digit it shows: stripping the mask gives back the
    first 11 digits of the input.  The formatted text has at most 14
    characters, and formatting it again changes nothing. *)
Theorem formatCPF_round_trip (value : string) :
  Masks.onlyDigits (Masks.formatCPF value) = Masks.take 11 (Masks.onlyDigits value)
  /\ (String.length (Masks.formatCPF value) <= 14)%nat
  /\ Masks.formatCPF (Masks.formatCPF value) = Masks.formatCPF value.
Proof.
  destruct (formatCPF_digits value) as [R L].
  split; [exact R|]. split; [exact L|].
  apply formatCPF_ext. rewrite R. apply take_take.
Qed.

(** X3 -- [formatCNPJ] loses no digit it shows: stripping the mask gives back the
    first 14 digits of the input.  The formatted text has at most 18
    characters, and formatting it again changes nothing. *)
Theorem formatCNPJ_round_trip (value : string) :
  Masks.onlyDigits (Masks.formatCNPJ value) = Masks.take 14 (Masks.onlyDigits value)
  /\ (String.length (Masks.formatCNPJ value) <= 18)%nat
  /\ Masks.formatCNPJ (Masks.formatCNPJ value) = Masks.formatCNPJ value.
Proof.
  destruct (formatCNPJ_digits value) as [R L].
  split; [exact R|]. split; [exact L|].
  apply formatCNPJ_ext. rewrite R. apply take_take.
Qed.

Lemma formatCpfCnpj_digits (value : string) :
  Masks.onlyDigits (Masks.formatCpfCnpj value) = Masks.take 14 (Masks.onlyDigits value)
  /\ (String.length (Masks.formatCpfCnpj value) <= 18)%nat.
Proof.
  unfold Masks.formatCpfCnpj. cbv zeta.
  set (d := Masks.onlyDigits value).
  assert (D : Masks.onlyDigits d = d)
    by (apply onlyDigits_allDigits, allDigits_onlyDigits).
  destruct (Nat.leb_spec (String.length d) 11) as [L|L].
  - destruct (formatCPF_digits d) as [R B]. rewrite R, D. split; [|lia].
    rewrite !take_all by lia. reflexivity.
  - destruct (formatCNPJ_digits d) as [R B]. rewrite R, D. split; [reflexivity | exact B].
Qed.

(** X4 -- [formatCpfCnpj], the mask of the CPF/CNPJ field: stripping the mask
    gives back the first 14 digits typed, the text has at most 18
    characters, and masking a masked value changes nothing, so retyping
    through the field's [onChange] is stable. *)
Theorem formatCpfCnpj_round_trip (value : string) :
  Masks.onlyDigits (Masks.formatCpfCnpj value) = Masks.take 14 (Masks.onlyDigits value)
  /\ (String.length (Masks.formatCpfCnpj value) <= 18)%nat
  /\ Masks.formatCpfCnpj (Masks.formatCpfCnpj value) = Masks.formatCpfCnpj value.
Proof.
  destruct (formatCpfCnpj_digits value) as [R B].
  split; [exact R|]. split; [exact B|].
  unfold Masks.formatCpfCnpj at 1. cbv zeta. rewrite R.
  unfold Masks.formatCpfCnpj. cbv zeta.
  set (d := Masks.onlyDigits value).
  assert (D : Masks.onlyDigits d = d)
    by (apply onlyDigits_allDigits, allDigits_onlyDigits).
  rewrite length_take.
  destruct (Nat.leb_spec (String.length d) 11) as [L|L].
  - destruct (Nat.leb_spec (Nat.min 14 (String.length d)) 11); [|lia].
    apply formatCPF_ext. rewrite (take_all 14 d) by lia. reflexivity.
  - destruct (Nat.leb_spec (Nat.min 14 (String.length d)) 11); [lia|].
    apply formatCNPJ_ext.
    rewrite (onlyDigits_allDigits (Masks.take 14 d))
      by (apply allDigits_take, allDigits_onlyDigits).
    rewrite D. apply take_take.
Qed.

(** X5 -- [formatCEP] loses no digit it shows: stripping the mask gives back the
    first 8 digits of the input, and the text has at most 9 characters. *)
Theorem formatCEP_round_trip (value : string) :
  Masks.onlyDigits (Masks.formatCEP value) = Masks.take 8 (Masks.onlyDigits value)
  /\ (String.length (Masks.formatCEP value) <= 9)%nat.
Proof.
  unfold Masks.formatCEP, Masks.slice.
  change (Masks.drop 0 (Masks.onlyDigits value)) with (Masks.onlyDigits value).
  cbn [Nat.sub].
  set (d := Masks.take 8 (Masks.onlyDigits value)).
  assert (D : allDigits d = true) by (apply allDigits_take, allDigits_onlyDigits).
  assert (L : (String.length d <= 8)%nat) by (unfold d; rewrite length_take; lia).
  clearbody d. cbv zeta. change (Masks.drop 0 d) with d.
  destruct (Nat.leb_spec (String.length d) 5);
    [split; [apply onlyDigits_allDigits; exact D | lia]|].
  split; [|count_mask].
  strip D. rewrite (take_all 3 (Masks.drop 5 d)) by (rewrite length_drop; lia).
  apply take_drop.
Qed.

(** X6 -- [formatPhoneBR] loses no digit it shows: stripping the mask gives back
    the first 11 digits of the input, and the text has at most 15
    characters. *)
Theorem formatPhoneBR_round_trip (value : string) :
  Masks.onlyDigits (Masks.formatPhoneBR value) = Masks.take 11 (Masks.onlyDigits value)
  /\ (String.length (Masks.formatPhoneBR value) <= 15)%nat.
Proof.
  unfold Masks.formatPhoneBR, Masks.slice.
  change (Masks.drop 0 (Masks.onlyDigits value)) with (Masks.onlyDigits value).
  cbn [Nat.sub].
  set (d := Masks.take 11 (Masks.onlyDigits value)).
  assert (D : allDigits d = true) by (apply allDigits_take, allDigits_onlyDigits).
  assert (L : (String.length d <= 11)%nat) by (unfold d; rewrite length_take; lia).
  clearbody d. cbv zeta. change (Masks.drop 0 d) with d.
  destruct (Nat.leb_spec (String.length d) 2).
  { split; [|count_mask]. strip D. apply onlyDigits_allDigits. exact D. }
  destruct (Nat.leb_spec (String.length d) 6).
  { split; [strip D; apply take_drop | count_mask]. }
  destruct (Nat.leb_spec (String.length d) 10).
  { split; [strip D; rewrite (piece 2 4 6 d eq_refl); apply take_drop | count_mask]. }
  split; [strip D; rewrite (piece 2 5 7 d eq_refl); apply take_drop | count_mask].
Qed.

(** ** Cart: lines added, removed and kept in bounds *)

Lemma find_none_no_line (pid : string) (cart : Cart) :
  find (PDV.same_product pid) cart = None -> ~ In pid (lineIds cart).
Proof.
  induction cart as [|c rest IH]; simpl; [tauto|].
  destruct (PDV.same_product pid c) eqn:S; [discriminate|].
  apply same_product_false in S. intros F [E | I]; [congruence | exact (IH F I)].
Qed.

Lemma find_some_line (pid : string) (cart : Cart) (e : CartItem) :
  find (PDV.same_product pid) cart = Some e ->
  In e cart /\ Product.id (product e) = pid.
Proof.
  intros F. apply find_some in F. destruct F as [I S].
  apply same_product_true in S. split; assumption.
Qed.

Lemma lineIds_setQuantity (pid : string) (f : Z -> Z) (cart : Cart) :
  lineIds (map (setQuantity pid f) cart) = lineIds cart.
Proof.
  unfold lineIds. rewrite map_map. apply map_ext. intros c. apply setQuantity_id.
Qed.

Lemma uniqueLines_filter (g : CartItem -> bool) (cart : Cart) :
  uniqueLines cart -> uniqueLines (filter g cart).
Proof.
  unfold uniqueLines. induction cart as [|c rest IH]; simpl; intros U; [exact U|].
  inversion U as [|? ? N R]; subst.
  destruct (g c); [|exact (IH R)].
  simpl. constructor; [|exact (IH R)].
  intros I. apply N. unfold lineIds in *. apply in_map_iff in I.
  destruct I as [x [E I]]. apply filter_In in I. apply in_map_iff. exists x. tauto.
Qed.

Lemma uniqueLines_snoc (cart : Cart) (c : CartItem) :
  uniqueLines cart -> ~ In (Product.id (product c)) (lineIds cart) ->
  uniqueLines (cart ++ [c]).
Proof.
  unfold uniqueLines, lineIds. intros U N. rewrite map_app. simpl.
  apply NoDup_app; [exact U | constructor; [simpl; tauto | constructor] |].
  intros x I [<- | []]. exact (N I).
Qed.

(** X7 -- Adding a product that has no line: a quantity of zero or less changes
    nothing and says nothing; a quantity within the stock of the product
    appends one line, after the lines there were; a quantity above the stock
    raises "Estoque insuficiente" and leaves the cart.  The legacy page
    appends a line of one unit without looking at the stock. *)
Theorem addProductToCart_new_line (cart : Cart) (p : Product.t) (qty : Z) :
  ~ In (Product.id p) (lineIds cart) ->
  (qty <= 0 -> PDV.addProductToCart cart p qty = (cart, None))
  /\ (0 < qty <= Product.stock_quantity p ->
      PDV.addProductToCart cart p qty = (cart ++ [mkCartItem p qty], Some Added))
  /\ (0 < qty -> Product.stock_quantity p < qty ->
      PDV.addProductToCart cart p qty
      = (cart, Some (InsufficientStock (Product.stock_quantity p))))
  /\ PDVLegacy.addToCart cart p = (cart ++ [mkCartItem p 1], Some Added).
Proof.
  intros N. destruct (no_line_absent _ _ N) as [F _].
  unfold PDV.addProductToCart, PDVLegacy.addToCart, PDVLegacy.same_product.
  rewrite F. repeat split; intros; run_guards; reflexivity.
Qed.

Lemma addProductToCart_new_line_witness :
  let p := Product.mk "P1" "001" "Camisa" 50 5 true in
  let q := Product.mk "P2" "002" "Calca" 80 3 true in
  PDV.addProductToCart [mkCartItem p 2] q 3
  = ([mkCartItem p 2; mkCartItem q 3], Some Added)
  /\ PDV.addProductToCart [mkCartItem p 2] q 4
     = ([mkCartItem p 2], Some (InsufficientStock 3)).
Proof.
  cbv zeta.
  pose (p := Product.mk "P1" "001" "Camisa" 50 5 true).
  pose (q := Product.mk "P2" "002" "Calca" 80 3 true).
  assert (N : ~ In (Product.id q) (lineIds [mkCartItem p 2])).
  { simpl. intros [H | []]. discriminate H. }
  destruct (addProductToCart_new_line [mkCartItem p 2] q 3 N) as [_ [A _]].
  destruct (addProductToCart_new_line [mkCartItem p 2] q 4 N) as [_ [_ [B _]]].
  split; [apply A; simpl; lia | apply B; simpl; lia].
Defined.

(** X8 -- The cart keeps one line per product: whatever is added, set or removed,
    on either revision of the page, a cart without two lines of one product
    stays so. *)
Theorem uniqueLines_preserved
        (products : list Product.t) (cart : Cart) (p : Product.t) (qty : Z)
        (pid : string) (newQty : Z) :
  uniqueLines cart ->
  uniqueLines (fst (PDV.addProductToCart cart p qty))
  /\ uniqueLines (fst (PDV.updateItemQty products cart pid newQty))
  /\ uniqueLines (PDV.removeItem cart pid)
  /\ uniqueLines (fst (PDVLegacy.addToCart cart p))
  /\ uniqueLines (fst (PDVLegacy.updateQuantity products cart pid newQty))
  /\ uniqueLines (PDVLegacy.removeFromCart cart pid).
Proof.
  intros U.
  assert (M : forall f i, uniqueLines (map (setQuantity i f) cart)).
  { intros f i. unfold uniqueLines. rewrite lineIds_setQuantity. exact U. }
  assert (UQ : uniqueLines (fst (PDV.updateItemQty products cart pid newQty))).
  { unfold PDV.updateItemQty.
    destruct (newQty <=? 0); [apply uniqueLines_filter; exact U|].
    destruct (find _ products) as [prod|];
      [destruct (newQty >? Product.stock_quantity prod); [exact U|]|];
      apply (M (fun _ => newQty) pid). }
  split; [|split; [exact UQ|split; [apply uniqueLines_filter; exact U|split;
    [|split; [exact UQ | apply uniqueLines_filter; exact U]]]]].
  - unfold PDV.addProductToCart.
    destruct (qty <=? 0); [exact U|].
    destruct (find _ cart) as [e|] eqn:F.
    + destruct (quantity e + qty >? Product.stock_quantity p); [exact U|].
      apply (M (fun q => q + qty) (Product.id p)).
    + destruct (qty >? Product.stock_quantity p); [exact U|].
      apply uniqueLines_snoc; [exact U | exact (find_none_no_line _ _ F)].
  - unfold PDVLegacy.addToCart, PDVLegacy.same_product.
    destruct (find _ cart) as [e|] eqn:F.
    + destruct (quantity e >=? Product.stock_quantity p); [exact U|].
      apply (M (fun q => q + 1) (Product.id p)).
    + apply uniqueLines_snoc; [exact U | exact (find_none_no_line _ _ F)].
Qed.

Lemma uniqueLines_preserved_witness :
  let p := Product.mk "P1" "001" "Camisa" 50 5 true in
  let q := Product.mk "P2" "002" "Calca" 80 3 true in
  uniqueLines (fst (PDV.addProductToCart [mkCartItem p 2] q 1))
  /\ uniqueLines (fst (PDV.addProductToCart [mkCartItem p 2] p 1)).
Proof.
  cbv zeta.
  pose (p := Product.mk "P1" "001" "Camisa" 50 5 true).
  pose (q := Product.mk "P2" "002" "Calca" 80 3 true).
  assert (U : uniqueLines [mkCartItem p 2]).
  { unfold uniqueLines. simpl. constructor; [simpl; tauto | constructor]. }
  split.
  - exact (proj1 (uniqueLines_preserved [p; q] [mkCartItem p 2] q 1 "P1" 1 U)).
  - exact (proj1 (uniqueLines_preserved [p; q] [mkCartItem p 2] p 1 "P1" 1 U)).
Defined.

Lemma cartWithin_line (products : list Product.t) (cart : Cart) (c : CartItem)
      (p : Product.t) :
  cartWithin products cart -> In c cart ->
  find (fun x => (Product.id x =? Product.id p)%string) products = Some p ->
  Product.id (product c) = Product.id p ->
  product c = p.
Proof.
  intros W I F E. unfold cartWithin in W. rewrite Forall_forall in W.
  destruct (W c I) as [Fc _]. rewrite E, F in Fc. congruence.
Qed.

(** X9 -- Quantities stay within the stock.  On a cart with one line per product,
    whose lines carry products of the loaded list in quantities from 1 to
    their stock, adding a loaded product, setting a quantity or removing a
    line gives a cart of the same kind: no handler lets a quantity drop to
    zero or pass the stock of the line.  The legacy page keeps this for
    products loaded with a stock of at least one. *)
Theorem cartWithin_preserved
        (products : list Product.t) (cart : Cart) (p : Product.t) (qty : Z)
        (pid : string) (newQty : Z) :
  uniqueLines cart ->
  cartWithin products cart ->
  find (fun x => (Product.id x =? Product.id p)%string) products = Some p ->
  cartWithin products (fst (PDV.addProductToCart cart p qty))
  /\ cartWithin products (fst (PDV.updateItemQty products cart pid newQty))
  /\ cartWithin products (PDV.removeItem cart pid)
  /\ (0 < Product.stock_quantity p ->
      cartWithin products (fst (PDVLegacy.addToCart cart p))).
Proof.
  intros U W F.
  assert (Wf : forall c, In c cart ->
                 find (fun x => (Product.id x =? Product.id (product c))%string) products
                 = Some (product c)
                 /\ 0 < quantity c <= Product.stock_quantity (product c))
    by (apply Forall_forall; exact W).
  assert (Filt : forall g, cartWithin products (filter g cart)).
  { intros g. unfold cartWithin in *. rewrite Forall_forall in *.
    intros c I. apply filter_In in I. apply W. tauto. }
  assert (Bump : forall e f,
             find (PDV.same_product (Product.id p)) cart = Some e ->
             0 < f (quantity e) <= Product.stock_quantity p ->
             cartWithin products (map (setQuantity (Product.id p) f) cart)).
  { intros e f Fe B. apply find_some_line in Fe. destruct Fe as [Ie Ee].
    unfold cartWithin. rewrite Forall_forall. intros c' I'.
    apply in_map_iff in I'. destruct I' as [c [<- I]].
    unfold setQuantity. destruct (PDV.same_product (Product.id p) c) eqn:S;
      [|exact (Wf c I)].
    apply same_product_true in S.
    assert (c = e).
    { destruct (find_unique_line cart e (Product.id p) U Ie Ee) as [_ L].
      assert (Ic : In c (filter (PDV.same_product (Product.id p)) cart))
        by (apply filter_In; split; [exact I | apply same_product_true; exact S]).
      rewrite L in Ic. destruct Ic as [-> | []]. reflexivity. }
    subst c. cbn [product quantity].
    split; [exact (proj1 (Wf e I))|].
    rewrite (cartWithin_line products cart e p W I F S). exact B. }
  split; [|split; [|split; [apply Filt|]]].
  - unfold PDV.addProductToCart.
    destruct (Z.leb_spec qty 0); [exact W|].
    destruct (find _ cart) as [e|] eqn:Fe.
    + destruct (Z.gtb_spec (quantity e + qty) (Product.stock_quantity p)); [exact W|].
      cbn [fst]. apply (Bump e (fun q => q + qty) eq_refl).
      apply find_some_line in Fe. destruct Fe as [Ie _].
      destruct (Wf e Ie) as [_ B]. lia.
    + destruct (Z.gtb_spec qty (Product.stock_quantity p)); [exact W|].
      cbn [fst]. unfold cartWithin. apply Forall_app. split; [exact W|].
      constructor; [|constructor]. cbn [product quantity]. split; [exact F | lia].
  - unfold PDV.updateItemQty.
    destruct (Z.leb_spec newQty 0); [apply Filt|].
    assert (SetQ : forall prod,
               find (fun x => (Product.id x =? pid)%string) products = Some prod ->
               newQty <= Product.stock_quantity prod ->
               cartWithin products (map (setQuantity pid (fun _ => newQty)) cart)).
    { intros prod Fp B. unfold cartWithin in *. rewrite Forall_forall in *.
      intros c' I'. apply in_map_iff in I'. destruct I' as [c [<- I]].
      unfold setQuantity. destruct (PDV.same_product pid c) eqn:S; [|exact (W c I)].
      apply same_product_true in S. cbn [product quantity].
      destruct (W c I) as [Fc _]. split; [exact Fc|].
      rewrite S, Fp in Fc. inversion Fc. subst. lia. }
    destruct (find (fun x => (Product.id x =? pid)%string) products) as [prod|] eqn:Fp.
    + destruct (Z.gtb_spec newQty (Product.stock_quantity prod)); [exact W|].
      cbn [fst]. apply (SetQ prod eq_refl). lia.
    + cbn [fst]. change (map _ cart) with (map (setQuantity pid (fun _ => newQty)) cart).
      rewrite map_setQuantity_absent; [exact W|].
      intros I. unfold lineIds in I. apply in_map_iff in I. destruct I as [c [E I]].
      destruct (Wf c I) as [Fc _]. rewrite E, Fp in Fc. discriminate Fc.
  - intros S. unfold PDVLegacy.addToCart, PDVLegacy.same_product.
    destruct (find _ cart) as [e|] eqn:Fe.
    + destruct (Z.geb_spec (quantity e) (Product.stock_quantity p)); [exact W|].
      cbn [fst]. apply (Bump e (fun q => q + 1) eq_refl).
      apply find_some_line in Fe. destruct Fe as [Ie _].
      destruct (Wf e Ie) as [_ B]. lia.
    + cbn [fst]. unfold cartWithin. apply Forall_app. split; [exact W|].
      constructor; [|constructor]. cbn [product quantity]. split; [exact F | lia].
Qed.

Lemma cartWithin_preserved_witness :
  let p := Product.mk "P1" "001" "Camisa" 50 5 true in
  let q := Product.mk "P2" "002" "Calca" 80 3 true in
  cartWithin [p; q] (fst (PDV.addProductToCart [mkCartItem p 2] p 9))
  /\ cartWithin [p; q] (fst (PDV.updateItemQty [p; q] [mkCartItem p 2] "P1" 9)).
Proof.
  cbv zeta.
  pose (p := Product.mk "P1" "001" "Camisa" 50 5 true).
  pose (q := Product.mk "P2" "002" "Calca" 80 3 true).
  assert (U : uniqueLines [mkCartItem p 2]).
  { unfold uniqueLines. simpl. constructor; [simpl; tauto | constructor]. }
  assert (W : cartWithin [p; q] [mkCartItem p 2]).
  { constructor; [|constructor]. split; [reflexivity | simpl; lia]. }
  destruct (cartWithin_preserved [p; q] [mkCartItem p 2] p 9 "P1" 9 U W eq_refl)
    as [A [B _]].
  split; [exact A | exact B].
Defined.

Lemma lineTotals_app (a b : Cart) :
  (lineTotals (a ++ b) == lineTotals a + lineTotals b)%Q.
Proof.
  induction a as [|c a IH]; simpl; [ring | rewrite IH; ring].
Qed.

Lemma lineTotals_split (pid : string) (cart : Cart) :
  (lineTotals cart
   == lineTotals (filter (PDV.same_product pid) cart)
      + lineTotals (filter (fun c => negb (PDV.same_product pid c)) cart))%Q.
Proof.
  induction cart as [|c rest IH]; simpl; [ring|].
  destruct (PDV.same_product pid c); simpl; rewrite IH; ring.
Qed.

Lemma filter_others_absent (pid : string) (cart : Cart) :
  ~ In pid (lineIds cart) ->
  filter (fun c => negb (PDV.same_product pid c)) cart = cart.
Proof.
  induction cart as [|c rest IH]; simpl; intros N; [reflexivity|].
  destruct (PDV.same_product pid c) eqn:S.
  - apply same_product_true in S. tauto.
  - simpl. rewrite IH by tauto. reflexivity.
Qed.

(** X10 -- What a successful add does to the subtotal.  On a cart with one line per
    product whose lines carry loaded products, whenever adding [qty] units
    of a loaded product raises "Adicionado" the subtotal grows by exactly
    the price of the product times [qty], whether the product had a line or
    not; on the legacy page it grows by the price of one unit. *)
Theorem subtotal_after_add
        (products : list Product.t) (cart : Cart) (p : Product.t) (qty : Z) :
  uniqueLines cart ->
  cartWithin products cart ->
  find (fun x => (Product.id x =? Product.id p)%string) products = Some p ->
  (snd (PDV.addProductToCart cart p qty) = Some Added ->
   (PDV.subtotal (fst (PDV.addProductToCart cart p qty))
    == PDV.subtotal cart + Product.sale_price p * inject_Z qty)%Q)
  /\ (snd (PDVLegacy.addToCart cart p) = Some Added ->
      (PDV.subtotal (fst (PDVLegacy.addToCart cart p))
       == PDV.subtotal cart + Product.sale_price p)%Q).
Proof.
  intros U W F.
  assert (Bump : forall e (k : Z),
             find (PDV.same_product (Product.id p)) cart = Some e ->
             (lineTotals (map (setQuantity (Product.id p) (fun q => (q + k)%Z)) cart)
              == lineTotals cart + Product.sale_price p * inject_Z k)%Q).
  { intros e k Fe. apply find_some_line in Fe. destruct Fe as [Ie Ee].
    destruct (find_unique_line cart e (Product.id p) U Ie Ee) as [_ L].
    rewrite (lineTotals_split (Product.id p) (map _ cart)).
    rewrite (lineTotals_split (Product.id p) cart).
    rewrite filter_same_setQuantity, filter_others_setQuantity, L.
    cbn [map lineTotals product quantity].
    rewrite (cartWithin_line products cart e p W Ie F Ee), inject_Z_plus. ring. }
  split; intros A; rewrite !subtotal_lineTotals.
  - unfold PDV.addProductToCart in *.
    destruct (qty <=? 0); [discriminate A|].
    destruct (find _ cart) as [e|] eqn:Fe.
    + destruct (quantity e + qty >? Product.stock_quantity p); [discriminate A|].
      cbn [fst]. apply (Bump e qty eq_refl).
    + destruct (qty >? Product.stock_quantity p); [discriminate A|].
      cbn [fst]. rewrite lineTotals_app. simpl. ring.
  - unfold PDVLegacy.addToCart, PDVLegacy.same_product in *.
    destruct (find _ cart) as [e|] eqn:Fe.
    + destruct (quantity e >=? Product.stock_quantity p); [discriminate A|].
      cbn [fst]. rewrite (Bump e 1 eq_refl). ring.
    + cbn [fst]. rewrite lineTotals_app. simpl. ring.
Qed.

Lemma subtotal_after_add_witness :
  let p := Product.mk "P1" "001" "Camisa" 50 5 true in
  let q := Product.mk "P2" "002" "Calca" 80 3 true in
  (PDV.subtotal (fst (PDV.addProductToCart [mkCartItem p 2] p 3))
   == PDV.subtotal [mkCartItem p 2] + 50 * inject_Z 3)%Q.
Proof.
  cbv zeta.
  pose (p := Product.mk "P1" "001" "Camisa" 50 5 true).
  pose (q := Product.mk "P2" "002" "Calca" 80 3 true).
  assert (U : uniqueLines [mkCartItem p 2]).
  { unfold uniqueLines. simpl. constructor; [simpl; tauto | constructor]. }
  assert (W : cartWithin [p; q] [mkCartItem p 2]).
  { constructor; [|constructor]. split; [reflexivity | simpl; lia]. }
  destruct (subtotal_after_add [p; q] [mkCartItem p 2] p 3 U W eq_refl) as [A _].
  apply A. reflexivity.
Defined.

(** X11 -- Removing the line of a product from a cart with one line per product:
    the cart loses exactly that line, so it is one line shorter, has no line
    of the product any more, and its subtotal drops by the price times the
    quantity of the line.  Removing again changes nothing; setting the
    quantity to zero is the same as removing, and so is the legacy
    [removeFromCart]. *)
Theorem removeItem_line
        (products : list Product.t) (cart : Cart) (e : CartItem) :
  uniqueLines cart ->
  In e cart ->
  let pid := Product.id (product e) in
  S (List.length (PDV.removeItem cart pid)) = List.length cart
  /\ ~ In pid (lineIds (PDV.removeItem cart pid))
  /\ (PDV.subtotal (PDV.removeItem cart pid)
      == PDV.subtotal cart
         - Product.sale_price (product e) * inject_Z (quantity e))%Q
  /\ PDV.removeItem (PDV.removeItem cart pid) pid = PDV.removeItem cart pid
  /\ fst (PDV.updateItemQty products cart pid 0) = PDV.removeItem cart pid
  /\ PDVLegacy.removeFromCart cart pid = PDV.removeItem cart pid.
Proof.
  intros U I pid.
  destruct (find_unique_line cart e pid U I eq_refl) as [_ L].
  split; [|split; [apply filter_others_no_line|split; [|split; [|split; reflexivity]]]].
  - pose proof (filter_length (PDV.same_product pid) cart) as FL.
    rewrite L in FL. simpl in FL. unfold PDV.removeItem. lia.
  - rewrite !subtotal_lineTotals, (lineTotals_split pid cart), L.
    unfold PDV.removeItem. simpl. ring.
  - unfold PDV.removeItem. apply filter_others_absent, filter_others_no_line.
Qed.

Lemma removeItem_line_witness :
  let p := Product.mk "P1" "001" "Camisa" 50 5 true in
  let q := Product.mk "P2" "002" "Calca" 80 3 true in
  let cart := [mkCartItem p 2; mkCartItem q 1] in
  S (List.length (PDV.removeItem cart "P1")) = 2%nat
  /\ (PDV.subtotal (PDV.removeItem cart "P1")
      == PDV.subtotal cart - 50 * inject_Z 2)%Q.
Proof.
  cbv zeta.
  pose (p := Product.mk "P1" "001" "Camisa" 50 5 true).
  pose (q := Product.mk "P2" "002" "Calca" 80 3 true).
  assert (U : uniqueLines [mkCartItem p 2; mkCartItem q 1]).
  { unfold uniqueLines. simpl.
    constructor; [simpl; intros [H | []]; discriminate H|].
    constructor; [simpl; tauto | constructor]. }
  destruct (removeItem_line [p; q] [mkCartItem p 2; mkCartItem q 1] (mkCartItem p 2)
              U (or_introl eq_refl)) as [A [_ [B _]]].
  split; [exact A | exact B].
Defined.

(** X12 -- Adding a product that had no line and then removing it gives back the
    cart as it was. *)
Theorem add_then_remove (cart : Cart) (p : Product.t) (qty : Z) :
  ~ In (Product.id p) (lineIds cart) ->
  PDV.removeItem (fst (PDV.addProductToCart cart p qty)) (Product.id p) = cart
  /\ PDVLegacy.removeFromCart (fst (PDVLegacy.addToCart cart p)) (Product.id p) = cart.
Proof.
  intros N. destruct (no_line_absent _ _ N) as [F _].
  assert (R : filter (fun c => negb (PDV.same_product (Product.id p) c)) cart = cart)
    by (apply filter_others_absent; exact N).
  assert (A : forall k,
             filter (fun c => negb (PDV.same_product (Product.id p) c))
                    (cart ++ [mkCartItem p k]) = cart).
  { intros k. rewrite filter_app, R. simpl.
    unfold PDV.same_product. cbn [product]. rewrite String.eqb_refl. simpl.
    apply app_nil_r. }
  unfold PDV.removeItem, PDVLegacy.removeFromCart, PDV.addProductToCart,
    PDVLegacy.addToCart, PDVLegacy.same_product.
  rewrite F. split; [|apply A].
  destruct (qty <=? 0); [exact R|].
  destruct (qty >? Product.stock_quantity p); [exact R | apply A].
Qed.

Lemma add_then_remove_witness :
  let p := Product.mk "P1" "001" "Camisa" 50 5 true in
  let q := Product.mk "P2" "002" "Calca" 80 3 true in
  PDV.removeItem (fst (PDV.addProductToCart [mkCartItem p 2] q 2)) "P2"
  = [mkCartItem p 2].
Proof.
  cbv zeta.
  apply (add_then_remove [mkCartItem (Product.mk "P1" "001" "Camisa" 50 5 true) 2]
           (Product.mk "P2" "002" "Calca" 80 3 true) 2).
  simpl. intros [H | []]. discriminate H.
Defined.

Lemma lineTotals_nonneg (cart : Cart) : pricedCart cart -> (0 <= lineTotals cart)%Q.
Proof.
  induction 1 as [|c rest [P Q] _ IH]; simpl; [lra|].
  assert (0 <= inject_Z (quantity c))%Q
    by (change 0%Q with (inject_Z 0); rewrite <- Zle_Qle; exact Q).
  nra.
Qed.

(** X13 -- The total between zero and the subtotal.  For a cart without negative
    prices or quantities and a discount of at least zero, the total of the
    reworked page lies between 0 and the subtotal and never grows with the
    discount; while the discount is within the subtotal it is the subtotal
    less the discount, and there the legacy [getTotal] agrees with it. *)
Theorem total_bounds (cart : Cart) (d : Q) :
  pricedCart cart ->
  (0 <= d)%Q ->
  (0 <= PDV.total cart d <= PDV.subtotal cart)%Q
  /\ (forall d', d <= d' -> PDV.total cart d' <= PDV.total cart d)%Q
  /\ (d <= PDV.subtotal cart ->
      PDV.total cart d == PDV.subtotal cart - d
      /\ PDVLegacy.getTotal cart d == PDV.total cart d)%Q.
Proof.
  intros P D.
  pose proof (lineTotals_nonneg cart P) as N.
  pose proof (subtotal_lineTotals cart) as E.
  assert (G : forall x, (PDVLegacy.getTotal cart x == PDV.subtotal cart - x)%Q)
    by (intros x; rewrite getTotal_lineTotals, E; reflexivity).
  unfold PDV.total.
  split; [split|split].
  - apply Q.le_max_l.
  - apply Q.max_lub; lra.
  - intros d' L. apply Q.max_le_compat_l. lra.
  - intros L. rewrite G. rewrite Q.max_r by lra. split; reflexivity.
Qed.

Lemma total_bounds_witness :
  let cart := [mkCartItem (Product.mk "P1" "001" "Camisa" 50 5 true) 2] in
  (0 <= PDV.total cart 30 <= PDV.subtotal cart)%Q
  /\ (PDVLegacy.getTotal cart 30 == PDV.total cart 30)%Q.
Proof.
  cbv zeta.
  assert (P : pricedCart [mkCartItem (Product.mk "P1" "001" "Camisa" 50 5 true) 2]).
  { constructor; [|constructor]. split; simpl; [lra | lia]. }
  assert (D : (0 <= 30)%Q) by lra.
  destruct (total_bounds _ 30 P D) as [A [_ B]].
  split; [exact A|]. apply B. vm_compute. discriminate.
Defined.

(** ** Finalizing a sale: what is written, and what a failure leaves *)

Lemma grows_refl (db : Db.t) : grows db db.
Proof.
  repeat split; try (exists []; symmetry; apply app_nil_r).
Qed.

Lemma grows_trans (a b c : Db.t) : grows a b -> grows b c -> grows a c.
Proof.
  intros [[s1 S1] [[i1 I1] [[n1 N1] P1]]] [[s2 S2] [[i2 I2] [[n2 N2] P2]]].
  split; [exists (s1 ++ s2); rewrite S2, S1, app_assoc; reflexivity|].
  split; [exists (i1 ++ i2); rewrite I2, I1, app_assoc; reflexivity|].
  split; [exists (n1 ++ n2); rewrite N2, N1, app_assoc; reflexivity|].
  rewrite P2. exact P1.
Qed.

Lemma grows_update_stock (pid : string) (q : Z) (db : Db.t) :
  grows db (Db.update_stock pid q db).
Proof.
  unfold Db.update_stock.
  repeat split; try (exists []; symmetry; apply app_nil_r).
  cbn [Db.products]. rewrite map_map. apply map_ext. intros p.
  destruct (Product.id p =? pid)%string; reflexivity.
Qed.

Lemma grows_insert_sale (row : Sale.t) (db : Db.t) : grows db (Db.insert_sale row db).
Proof.
  unfold Db.insert_sale.
  split; [exists [row]; reflexivity|].
  repeat split; exists []; symmetry; apply app_nil_r.
Qed.

Lemma grows_insert_sale_items (rows : list SaleItem.t) (db : Db.t) :
  grows db (Db.insert_sale_items rows db).
Proof.
  unfold Db.insert_sale_items.
  split; [exists []; symmetry; apply app_nil_r|].
  split; [exists rows; reflexivity|].
  split; [exists []; symmetry; apply app_nil_r | reflexivity].
Qed.

Lemma grows_insert_installments (uuid : Installment.insert -> string)
      (rows : list Installment.insert) (db : Db.t) :
  grows db (Db.insert_installments uuid rows db).
Proof.
  unfold Db.insert_installments.
  split; [exists []; symmetry; apply app_nil_r|].
  split; [exists []; symmetry; apply app_nil_r|].
  split; [eexists; reflexivity | reflexivity].
Qed.

Lemma grows_request (be : Backend) (s : Step) (w : Db.t -> Db.t) (db : Db.t) :
  grows db (w db) -> grows db (fst (request be s w db)).
Proof.
  intros G. unfold request. destruct (fails be s); [apply grows_refl | exact G].
Qed.

Lemma grows_bind (A B : Type) (m : Call A) (k : A -> Call B) (db : Db.t) :
  grows db (fst (m db)) ->
  (forall a d, grows d (fst (k a d))) ->
  grows db (fst (bind m k db)).
Proof.
  intros Gm Gk. unfold bind. destruct (m db) as [d [a|]]; [|exact Gm].
  eapply grows_trans; [exact Gm | apply Gk].
Qed.

Lemma grows_stockWrites (be : Backend) (cart : Cart) (db : Db.t) :
  grows db (fst (stockWrites be cart db)).
Proof.
  revert db. induction cart as [|c rest IH]; intros db; [apply grows_refl|].
  unfold stockWrites. cbn [forEach]. apply grows_bind.
  - apply grows_request, grows_update_stock.
  - intros _ d. apply IH.
Qed.

Lemma grows_checkout (be : Backend) (sale : Sale.t) (cart : Cart)
      (withRows : bool) (rows : list Installment.insert) (db : Db.t) :
  grows db (fst (checkout be sale cart withRows rows db)).
Proof.
  unfold checkout.
  apply grows_bind; [apply grows_request, grows_insert_sale|]. intros _ d1.
  apply grows_bind; [apply grows_request, grows_insert_sale_items|]. intros _ d2.
  apply grows_bind; [apply grows_stockWrites|]. intros _ d3.
  apply grows_bind; [|intros _ d4; apply grows_refl].
  destruct withRows; [apply grows_request, grows_insert_installments | apply grows_refl].
Qed.

(** X14 -- [finalizeSale] only ever adds.  Whatever the cart, the session and the
    answers of the store, and whether it ends on the success toast or on a
    failure, the store it leaves has every sale, sale item and instalment
    row it had, unchanged and in place, and the same products with at most
    their stock changed.  Both revisions. *)
Theorem finalizeSale_only_appends
        (be : Backend) (now : Js.Date) (st : State.t) (db : Db.t) :
  grows db (fst (PDV.finalizeSale be now st db))
  /\ grows db (fst (PDVLegacy.finalizeSale be now st db)).
Proof.
  unfold PDV.finalizeSale, PDVLegacy.finalizeSale.
  destruct (List.length (State.cart st) =? 0)%nat;
    [split; apply grows_refl|].
  destruct (State.user st) as [u|]; [|split; apply grows_refl].
  split.
  - pose proof (grows_checkout be (PDV.saleRow be u st) (State.cart st) (wantsRows st)
                  (PDV.installmentRows (sale_uuid be)
                     (PDV.total (State.cart st) (State.discount st))
                     (State.installments st) now) db) as G.
    rewrite <- submit_checkout in G.
    destruct (PDV.submit be now u st db) as [d [s|]]; exact G.
  - pose proof (grows_checkout be (PDVLegacy.saleRow be u st) (State.cart st)
                  (wantsRows st)
                  (PDVLegacy.installmentData (sale_uuid be)
                     (PDVLegacy.getTotal (State.cart st) (State.discount st))
                     (State.installments st) now) db) as G.
    rewrite <- submit_legacy_checkout in G.
    destruct (PDVLegacy.submit be now u st db) as [d [s|]]; exact G.
Qed.

Lemma applyStock_app (pre post : Cart) (db : Db.t) :
  applyStock (pre ++ post) db = applyStock post (applyStock pre db).
Proof. unfold applyStock. apply fold_left_app. Qed.

Lemma stockWrites_stops (be : Backend) (pre post : Cart) (item : CartItem) (db : Db.t) :
  (forall c, In c pre -> fails be (UpdateStock (Product.id (product c))) = false) ->
  fails be (UpdateStock (Product.id (product item))) = true ->
  stockWrites be (pre ++ item :: post) db = (applyStock pre db, None).
Proof.
  revert db. induction pre as [|c pre IH]; intros db Ok Bad.
  - unfold stockWrites. cbn [app forEach]. unfold bind at 1, request at 1.
    rewrite Bad. reflexivity.
  - unfold stockWrites. cbn [app forEach]. unfold bind at 1, request at 1.
    rewrite (Ok c (or_introl eq_refl)).
    apply (IH _ (fun x I => Ok x (or_intror I)) Bad).
Qed.

(** The stock loop writes the lines of some front part of the cart and no
    other. *)
Lemma stockWrites_prefix (be : Backend) (cart : Cart) (db : Db.t) :
  exists pre post,
    cart = pre ++ post /\ fst (stockWrites be cart db) = applyStock pre db.
Proof.
  revert db. induction cart as [|c rest IH]; intros db.
  - exists [], []. split; reflexivity.
  - unfold stockWrites. cbn [forEach]. unfold bind at 1, request at 1.
    destruct (fails be (UpdateStock (Product.id (product c)))).
    + exists [], (c :: rest). split; reflexivity.
    + destruct (IH (Db.update_stock (Product.id (product c))
                      (Product.stock_quantity (product c) - quantity c) db))
        as [pre [post [E R]]].
      exists (c :: pre), post. split; [rewrite E; reflexivity | exact R].
Qed.

(** X15 -- No failure is undone.  With a cart and a signed-in user: if the store
    refuses the sale row nothing is written; if it takes the sale row and
    refuses the items, the sale row stays, without items and with the stock
    as it was; if it refuses the stock update of one line, the sale row, all
    its items and the stock updates of the lines before that one stay, and
    the lines from that one on keep their stock.  Each case ends on the
    failure toast. *)
Theorem finalizeSale_no_rollback
        (be : Backend) (now : Js.Date) (st : State.t) (db : Db.t) (u : string) :
  State.cart st <> [] ->
  State.user st = Some u ->
  let sale := PDV.saleRow be u st in
  let items := PDV.saleItems (Sale.id sale) (State.cart st) in
  (fails be InsertSale = true ->
   PDV.finalizeSale be now st db = (db, FinalizeFailed))
  /\ (fails be InsertSale = false -> fails be InsertSaleItems = true ->
      PDV.finalizeSale be now st db = (Db.insert_sale sale db, FinalizeFailed))
  /\ (forall pre item post,
         fails be InsertSale = false -> fails be InsertSaleItems = false ->
         State.cart st = pre ++ item :: post ->
         (forall c, In c pre ->
                    fails be (UpdateStock (Product.id (product c))) = false) ->
         fails be (UpdateStock (Product.id (product item))) = true ->
         PDV.finalizeSale be now st db
         = (applyStock pre (Db.insert_sale_items items (Db.insert_sale sale db)),
            FinalizeFailed)).
Proof.
  intros C U sale items.
  unfold PDV.finalizeSale.
  destruct (Nat.eqb_spec (List.length (State.cart st)) 0) as [L|_];
    [apply length_zero_iff_nil in L; contradiction|].
  rewrite U, submit_checkout. unfold checkout, bind, request.
  split; [|split].
  - intros ->. reflexivity.
  - intros -> ->. reflexivity.
  - intros pre item post -> -> E Ok Bad.
    fold sale. fold items. rewrite E.
    rewrite (stockWrites_stops be pre post item _ Ok Bad). reflexivity.
Qed.

Lemma finalizeSale_no_rollback_witness :
  let p := Product.mk "P1" "001" "Camisa" 50 5 true in
  let q := Product.mk "P2" "002" "Calca" 80 3 true in
  let be := mkBackend
              (fun s => match s with
                        | UpdateStock pid => (pid =? "P2")%string
                        | _ => false
                        end) "S1" (fun _ => "I1"%string) in
  let st := State.mk [mkCartItem p 2; mkCartItem q 1] 0 cash 1 ""
                     (Some "u1"%string) in
  let db' := fst (PDV.finalizeSale be (Js.mkDate 2024 0 15 0) st
                    (Db.mk [p; q] [] [] [])) in
  snd (PDV.finalizeSale be (Js.mkDate 2024 0 15 0) st (Db.mk [p; q] [] [] []))
  = FinalizeFailed
  /\ List.length (Db.sales db') = 1%nat
  /\ List.length (Db.sale_items db') = 2%nat
  /\ Db.stock_of "P1" db' = Some 3
  /\ Db.stock_of "P2" db' = Some 3.
Proof.
  cbv zeta.
  pose (p := Product.mk "P1" "001" "Camisa" 50 5 true).
  pose (q := Product.mk "P2" "002" "Calca" 80 3 true).
  pose (be := mkBackend
                (fun s => match s with
                          | UpdateStock pid => (pid =? "P2")%string
                          | _ => false
                          end) "S1" (fun _ => "I1"%string)).
  pose (st := State.mk [mkCartItem p 2; mkCartItem q 1] 0 cash 1 ""
                       (Some "u1"%string)).
  assert (C : State.cart st <> []) by (simpl; discriminate).
  destruct (finalizeSale_no_rollback be (Js.mkDate 2024 0 15 0) st
              (Db.mk [p; q] [] [] []) "u1" C eq_refl) as [_ [_ H]].
  assert (Ok : forall c, In c [mkCartItem p 2] ->
                         fails be (UpdateStock (Product.id (product c))) = false).
  { intros c [<- | []]. reflexivity. }
  pose proof (H [mkCartItem p 2] (mkCartItem q 1) [] eq_refl eq_refl eq_refl Ok eq_refl)
    as E.
  unfold be, st, p, q in E. rewrite E. repeat split.
Defined.

Lemma checkout_stock_untouched (be : Backend) (sale : Sale.t) (cart : Cart)
      (withRows : bool) (rows : list Installment.insert) (db : Db.t) (pid : string) :
  ~ In pid (lineIds cart) ->
  Db.stock_of pid (fst (checkout be sale cart withRows rows db)) = Db.stock_of pid db.
Proof.
  intros N. unfold checkout, bind, request.
  destruct (fails be InsertSale); [reflexivity|].
  destruct (fails be InsertSaleItems); [reflexivity|].
  destruct (stockWrites_prefix be cart
              (Db.insert_sale_items (PDV.saleItems (Sale.id sale) cart)
                 (Db.insert_sale sale db))) as [pre [post [E R]]].
  assert (Np : ~ In pid (lineIds pre)).
  { intros I. apply N. rewrite E. unfold lineIds in *. rewrite map_app.
    apply in_or_app. left. exact I. }
  destruct (stockWrites be cart _) as [d3 [[]|]] eqn:S; cbn [fst] in R; subst d3.
  - assert (T : Db.stock_of pid
                  (applyStock pre
                     (Db.insert_sale_items (PDV.saleItems (Sale.id sale) cart)
                        (Db.insert_sale sale db))) = Db.stock_of pid db)
      by (rewrite stock_of_applyStock_absent by exact Np; reflexivity).
    destruct withRows; [destruct (fails be InsertInstallments)|]; cbn [fst]; exact T.
  - cbn [fst]. rewrite stock_of_applyStock_absent by exact Np. reflexivity.
Qed.

(** X16 -- A sale touches the stock of the products sold and of no other: for a
    product without a line in the cart, the store holds after
    [finalizeSale] the stock it held before, whether the sale went through
    or failed on the way.  Both revisions. *)
Theorem finalizeSale_other_stock
        (be : Backend) (now : Js.Date) (st : State.t) (db : Db.t) (pid : string) :
  ~ In pid (lineIds (State.cart st)) ->
  Db.stock_of pid (fst (PDV.finalizeSale be now st db)) = Db.stock_of pid db
  /\ Db.stock_of pid (fst (PDVLegacy.finalizeSale be now st db)) = Db.stock_of pid db.
Proof.
  intros N. unfold PDV.finalizeSale, PDVLegacy.finalizeSale.
  destruct (List.length (State.cart st) =? 0)%nat; [split; reflexivity|].
  destruct (State.user st) as [u|]; [|split; reflexivity].
  split.
  - pose proof (checkout_stock_untouched be (PDV.saleRow be u st) (State.cart st)
                  (wantsRows st)
                  (PDV.installmentRows (sale_uuid be)
                     (PDV.total (State.cart st) (State.discount st))
                     (State.installments st) now) db pid N) as G.
    rewrite <- submit_checkout in G.
    destruct (PDV.submit be now u st db) as [d [s|]]; exact G.
  - pose proof (checkout_stock_untouched be (PDVLegacy.saleRow be u st) (State.cart st)
                  (wantsRows st)
                  (PDVLegacy.installmentData (sale_uuid be)
                     (PDVLegacy.getTotal (State.cart st) (State.discount st))
                     (State.installments st) now) db pid N) as G.
    rewrite <- submit_legacy_checkout in G.
    destruct (PDVLegacy.submit be now u st db) as [d [s|]]; exact G.
Qed.

Lemma finalizeSale_other_stock_witness :
  let p := Product.mk "P1" "001" "Camisa" 50 5 true in
  let q := Product.mk "P2" "002" "Calca" 80 3 true in
  let be := mkBackend (fun _ => false) "S1" (fun _ => "I1"%string) in
  let st := State.mk [mkCartItem p 2] 0 cash 1 "" (Some "u1"%string) in
  Db.stock_of "P2" (fst (PDV.finalizeSale be (Js.mkDate 2024 0 15 0) st
                           (Db.mk [p; q] [] [] [])))
  = Some 3.
Proof.
  cbv zeta.
  apply (finalizeSale_other_stock
           (mkBackend (fun _ => false) "S1" (fun _ => "I1"%string))
           (Js.mkDate 2024 0 15 0)
           (State.mk [mkCartItem (Product.mk "P1" "001" "Camisa" 50 5 true) 2]
                     0 cash 1 "" (Some "u1"%string))
           (Db.mk [Product.mk "P1" "001" "Camisa" 50 5 true;
                   Product.mk "P2" "002" "Calca" 80 3 true] [] [] [])
           "P2").
  simpl. intros [H | []]. discriminate H.
Defined.

Lemma checkedOut_sale_items (be : Backend) (sale : Sale.t) (cart : Cart)
      (withRows : bool) (rows : list Installment.insert) (db : Db.t) :
  Db.sale_items (checkedOut be sale cart withRows rows db)
  = Db.sale_items db ++ PDV.saleItems (Sale.id sale) cart.
Proof.
  unfold checkedOut.
  destruct withRows; cbn [Db.insert_installments Db.sale_items];
    rewrite (proj1 (proj2 (applyStock_tables _ _))); reflexivity.
Qed.

Lemma saleItems_lines (sid : string) (cart : Cart) :
  Forall2 (itemOfLine sid) cart (PDV.saleItems sid cart)
  /\ (sumTotalPrice (PDV.saleItems sid cart) == PDV.subtotal cart)%Q.
Proof.
  split.
  - induction cart as [|c rest IH]; simpl; constructor; [|exact IH].
    unfold itemOfLine. cbn. repeat split; reflexivity.
  - rewrite subtotal_lineTotals.
    induction cart as [|c rest IH]; simpl; [reflexivity|]. rewrite IH. reflexivity.
Qed.

(** X17 -- The items of a finished sale.  A sale that ends on the success toast has
    added one row to [sales] and, to [sale_items], one row per cart line in
    cart order, each with the product, quantity and unit price of its line
    and their product as total price; the item totals add up to the
    subtotal, and the amount of the sale row is that sum less the discount,
    floored at zero on the reworked page and as it comes on the legacy
    page. *)
Theorem finalizeSale_items
        (be : Backend) (now : Js.Date) (st : State.t) (db db' : Db.t) (sid : string) :
  (PDV.finalizeSale be now st db = (db', SaleFinalized sid) ->
   exists sale items,
     Db.sales db' = Db.sales db ++ [sale]
     /\ Db.sale_items db' = Db.sale_items db ++ items
     /\ Forall2 (itemOfLine sid) (State.cart st) items
     /\ State.user st = Some (Sale.user_id sale)
     /\ Sale.status sale = Sale.completed
     /\ (Sale.total_amount sale
         == Qmax 0 (sumTotalPrice items - State.discount st))%Q)
  /\ (PDVLegacy.finalizeSale be now st db = (db', SaleFinalized sid) ->
      exists sale items,
        Db.sales db' = Db.sales db ++ [sale]
        /\ Db.sale_items db' = Db.sale_items db ++ items
        /\ Forall2 (itemOfLine sid) (State.cart st) items
        /\ State.user st = Some (Sale.user_id sale)
        /\ Sale.status sale = Sale.completed
        /\ (Sale.total_amount sale == sumTotalPrice items - State.discount st)%Q).
Proof.
  split; intros H.
  - apply finalizeSale_inv in H. destruct H as [u [_ [U H]]].
    rewrite submit_checkout in H. apply checkout_done in H. destruct H as [-> ->].
    exists (PDV.saleRow be u st), (PDV.saleItems (sale_uuid be) (State.cart st)).
    destruct (saleItems_lines (sale_uuid be) (State.cart st)) as [L S].
    split; [apply checkedOut_sales|]. split; [apply checkedOut_sale_items|].
    split; [exact L|]. split; [exact U|]. split; [reflexivity|].
    cbn [PDV.saleRow Sale.total_amount]. unfold PDV.total. rewrite S. reflexivity.
  - apply finalizeSale_legacy_inv in H. destruct H as [u [_ [U H]]].
    rewrite submit_legacy_checkout in H. apply checkout_done in H. destruct H as [-> ->].
    exists (PDVLegacy.saleRow be u st), (PDV.saleItems (sale_uuid be) (State.cart st)).
    destruct (saleItems_lines (sale_uuid be) (State.cart st)) as [L S].
    split; [apply checkedOut_sales|]. split; [apply checkedOut_sale_items|].
    split; [exact L|]. split; [exact U|]. split; [reflexivity|].
    cbn [PDVLegacy.saleRow Sale.total_amount].
    rewrite getTotal_lineTotals, S, subtotal_lineTotals. reflexivity.
Qed.

Lemma finalizeSale_items_witness :
  let p := Product.mk "P1" "001" "Camisa" 50 5 true in
  let be := mkBackend (fun _ => false) "S1" (fun _ => "I1"%string) in
  let st := State.mk [mkCartItem p 2] 30 cash 1 "" (Some "u1"%string) in
  let db := Db.mk [p] [] [] [] in
  exists sale items,
    Db.sales (fst (PDV.finalizeSale be (Js.mkDate 2024 0 15 0) st db)) = [sale]
    /\ Db.sale_items (fst (PDV.finalizeSale be (Js.mkDate 2024 0 15 0) st db)) = items
    /\ Forall2 (itemOfLine "S1") [mkCartItem p 2] items
    /\ (Sale.total_amount sale == Qmax 0 (sumTotalPrice items - 30))%Q.
Proof.
  cbv zeta.
  pose (p := Product.mk "P1" "001" "Camisa" 50 5 true).
  pose (be := mkBackend (fun _ => false) "S1" (fun _ => "I1"%string)).
  pose (st := State.mk [mkCartItem p 2] 30 cash 1 "" (Some "u1"%string)).
  pose (db := Db.mk [p] [] [] []).
  destruct (finalizeSale_items be (Js.mkDate 2024 0 15 0) st db
              (fst (PDV.finalizeSale be (Js.mkDate 2024 0 15 0) st db)) "S1")
    as [A _].
  destruct (A eq_refl) as [sale [items [S [I [L [_ [_ T]]]]]]].
  exists sale, items. split; [exact S|]. split; [exact I|]. split; [exact L | exact T].
Defined.

Lemma sumStored_inserted (uuid : Installment.insert -> string)
      (rows : list Installment.insert) :
  (sumStored
     (map (fun r => Installment.mk (uuid r) (Installment.new_sale_id r)
                      (Installment.new_installment_number r)
                      (Installment.new_amount r) (Installment.new_due_date r) None
                      (Some (Installment.new_status r))) rows)
   == sumAmounts rows)%Q.
Proof.
  induction rows as [|r rest IH]; simpl; [reflexivity|]. rewrite IH. reflexivity.
Qed.

(** X18 -- The instalments of a finished sale on the reworked page.  For a sale by
    instalments with a count above one, the rows added to [installments]
    are as many as the count, all of that sale, pending and without payment
    date, each of a whole number of cents, and their amounts add up to the
    amount of the sale to within half a cent per instalment. *)
Theorem finalizeSale_installment_amounts
        (be : Backend) (now : Js.Date) (st : State.t) (db db' : Db.t) (sid : string) :
  PDV.finalizeSale be now st db = (db', SaleFinalized sid) ->
  State.paymentMethod st = installment ->
  1 < State.installments st ->
  let n := State.installments st in
  let total := PDV.total (State.cart st) (State.discount st) in
  exists rows,
    Db.installments db' = Db.installments db ++ rows
    /\ List.length rows = Z.to_nat n
    /\ Forall (fun r => Installment.sale_id r = sid
                        /\ Installment.status r = Some Installment.pending
                        /\ Installment.payment_date r = None
                        /\ exists k : Z, (Installment.amount r * 100 == inject_Z k)%Q)
              rows
    /\ (total - inject_Z n * (1 # 200) <= sumStored rows
        <= total + inject_Z n * (1 # 200))%Q.
Proof.
  intros H PM N n total.
  apply finalizeSale_inv in H. destruct H as [u [_ [_ H]]].
  rewrite submit_checkout in H. apply checkout_done in H. destruct H as [-> ->].
  assert (W : wantsRows st = true).
  { unfold wantsRows. rewrite PM. cbn [PaymentMethod_eqb andb].
    apply Z.gtb_lt. exact N. }
  unfold checkedOut. rewrite W. cbn [Db.insert_installments Db.installments].
  rewrite (proj2 (proj2 (applyStock_tables _ _))).
  cbn [Db.insert_sale_items Db.insert_sale Db.installments].
  eexists. split; [reflexivity|].
  assert (N2 : 2 <= n) by (unfold n; lia).
  destruct (installmentRows_schedule (sale_uuid be) total n now N2)
    as [L [_ [_ [_ B]]]].
  split; [rewrite length_map; exact L|]. split.
  - apply Forall_forall. intros r I. apply in_map_iff in I.
    destruct I as [x [<- I]]. cbn.
    unfold PDV.installmentRows in I. apply in_map_iff in I.
    destruct I as [idx [<- _]]. cbn.
    repeat split. apply toFixed2_cents.
  - rewrite sumStored_inserted. exact B.
Qed.

Lemma finalizeSale_installment_amounts_witness :
  let p := Product.mk "P1" "001" "Camisa" 50 5 true in
  let be := mkBackend (fun _ => false) "S1" (fun _ => "I1"%string) in
  let st := State.mk [mkCartItem p 2] 0 installment 3 "" (Some "u1"%string) in
  let db := Db.mk [p] [] [] [] in
  exists rows,
    Db.installments (fst (PDV.finalizeSale be (Js.mkDate 2024 0 15 0) st db)) = rows
    /\ List.length rows = 3%nat
    /\ (100 - 3 * (1 # 200) <= sumStored rows <= 100 + 3 * (1 # 200))%Q.
Proof.
  cbv zeta.
  pose (p := Product.mk "P1" "001" "Camisa" 50 5 true).
  pose (be := mkBackend (fun _ => false) "S1" (fun _ => "I1"%string)).
  pose (st := State.mk [mkCartItem p 2] 0 installment 3 "" (Some "u1"%string)).
  pose (db := Db.mk [p] [] [] []).
  assert (N : 1 < State.installments st) by (simpl; lia).
  destruct (finalizeSale_installment_amounts be (Js.mkDate 2024 0 15 0) st db
              (fst (PDV.finalizeSale be (Js.mkDate 2024 0 15 0) st db)) "S1"
              eq_refl eq_refl N) as [rows [A [L [_ B]]]].
  exists rows. split; [exact A|]. split; [exact L | exact B].
Defined.



(** ** Looking products up *)

Lemma truthy_false (s : string) : truthy s = false <-> s = ""%string.
Proof.
  unfold truthy. destruct (String.eqb_spec s ""); simpl; split; congruence.
Qed.

Lemma filteredProducts_subset
      (trim toLowerCase : string -> string) (includes : string -> string -> bool)
      (products : list Product.t) (productQuery : string) (p : Product.t) :
  In p (PDV.filteredProducts trim toLowerCase includes products productQuery) ->
  In p products.
Proof.
  unfold PDV.filteredProducts.
  destruct (negb (truthy (toLowerCase (trim productQuery)))); [tauto|].
  intros I. apply filter_In in I. tauto.
Qed.

(** X20 -- [handleBarcodeEnter], whatever [trim], [toLowerCase] and [includes] do.
    A query that trims to nothing raises "Informe o codigo ou nome" and
    leaves cart and query.  Otherwise a loaded product whose code equals the
    query up to case is the one added, before any match by name; failing
    that, the first product of the filtered list.  The cart is only ever
    changed by adding one unit of a loaded product, and then the query is
    cleared; when nothing is found the toast is "Produto nao encontrado"
    and cart and query stay. *)
Theorem handleBarcodeEnter_cases
        (trim toLowerCase : string -> string) (includes : string -> string -> bool)
        (products : list Product.t) (cart : Cart) (productQuery : string) :
  let r := PDV.handleBarcodeEnter trim toLowerCase includes products cart productQuery in
  (trim productQuery = ""%string -> r = (cart, productQuery, InformQuery))
  /\ (forall p,
         trim productQuery <> ""%string ->
         find (fun x => (toLowerCase (Product.code x)
                         =? toLowerCase (trim productQuery))%string) products
         = Some p ->
         r = (fst (PDV.addProductToCart cart p 1), ""%string,
              FromCart (snd (PDV.addProductToCart cart p 1))))
  /\ (r = (cart, productQuery, InformQuery)
      \/ r = (cart, productQuery, ProductNotFound)
      \/ exists p, In p products
                   /\ r = (fst (PDV.addProductToCart cart p 1), ""%string,
                           FromCart (snd (PDV.addProductToCart cart p 1)))).
Proof.
  intros r. unfold r, PDV.handleBarcodeEnter. cbv zeta.
  destruct (truthy (trim productQuery)) eqn:T; cbn [negb].
  - assert (N : trim productQuery <> ""%string).
    { intros E. apply truthy_false in E. congruence. }
    split; [intros E; contradiction|]. split.
    + intros p _ F. rewrite F. reflexivity.
    + right.
      destruct (find _ products) as [p|] eqn:F.
      * right. exists p. split; [exact (proj1 (find_some _ _ F)) | reflexivity].
      * destruct (hd_error _) as [p|] eqn:H; [|left; reflexivity].
        right. exists p. split; [|reflexivity].
        apply (filteredProducts_subset trim toLowerCase includes products productQuery).
        destruct (PDV.filteredProducts trim toLowerCase includes products productQuery)
          as [|x xs]; [discriminate H|].
        inversion H. left. reflexivity.
  - apply truthy_false in T.
    split; [reflexivity|]. split; [intros p N; contradiction | left; reflexivity].
Qed.

Lemma handleBarcodeEnter_cases_witness :
  let p := Product.mk "P1" "001" "Camisa" 50 5 true in
  let q := Product.mk "P2" "002" "Calca" 80 3 true in
  PDV.handleBarcodeEnter (fun s => s) (fun s => s) String.eqb [p; q] [] ""
  = ([], ""%string, InformQuery)
  /\ PDV.handleBarcodeEnter (fun s => s) (fun s => s) String.eqb [p; q] [] "002"
     = ([mkCartItem q 1], ""%string, FromCart (Some Added)).
Proof.
  cbv zeta.
  pose (p := Product.mk "P1" "001" "Camisa" 50 5 true).
  pose (q := Product.mk "P2" "002" "Calca" 80 3 true).
  destruct (handleBarcodeEnter_cases (fun s => s) (fun s => s) String.eqb [p; q] [] "")
    as [A _].
  destruct (handleBarcodeEnter_cases (fun s => s) (fun s => s) String.eqb [p; q] [] "002")
    as [_ [B _]].
  split; [apply A; reflexivity|].
  apply (B q); [discriminate | reflexivity].
Defined.

Lemma find_unique_code (products : list Product.t) (p : Product.t) :
  NoDup (map Product.code products) -> In p products ->
  find (fun x => (Product.code x =? Product.code p)%string) products = Some p.
Proof.
  induction products as [|x xs IH]; intros U I; [contradiction|].
  simpl in U. inversion U as [|? ? N R]; subst. simpl.
  destruct (String.eqb_spec (Product.code x) (Product.code p)) as [E|E].
  - destruct I as [-> | I]; [reflexivity|].
    exfalso. apply N. rewrite E. apply in_map. exact I.
  - destruct I as [-> | I]; [congruence | exact (IH R I)].
Qed.

(** X21 -- [searchProductByCode] of the legacy page.  A code that no loaded product
    has raises "Produto nao encontrado" and leaves the cart and the search
    box.  With codes unique among the loaded products, the code of a loaded
    product adds that very product, as a click on it would, and clears the
    search box. *)
Theorem searchProductByCode_cases
        (products : list Product.t) (cart : Cart) (searchCode : string) :
  ((forall p, In p products -> Product.code p <> searchCode) ->
   PDVLegacy.searchProductByCode products cart searchCode
   = (cart, searchCode, ProductNotFound))
  /\ (forall p,
         NoDup (map Product.code products) -> In p products ->
         PDVLegacy.searchProductByCode products cart (Product.code p)
         = (fst (PDVLegacy.addToCart cart p), ""%string,
            FromCart (snd (PDVLegacy.addToCart cart p)))).
Proof.
  unfold PDVLegacy.searchProductByCode. split.
  - intros N. destruct (find _ products) as [p|] eqn:F; [|reflexivity].
    apply find_some in F. destruct F as [I E]. apply String.eqb_eq in E.
    exfalso. exact (N p I E).
  - intros p U I. rewrite (find_unique_code products p U I). reflexivity.
Qed.

Lemma searchProductByCode_cases_witness :
  let p := Product.mk "P1" "001" "Camisa" 50 5 true in
  let q := Product.mk "P2" "002" "Calca" 80 3 true in
  PDVLegacy.searchProductByCode [p; q] [] "999" = ([], "999"%string, ProductNotFound)
  /\ PDVLegacy.searchProductByCode [p; q] [] "002"
     = ([mkCartItem q 1], ""%string, FromCart (Some Added)).
Proof.
  cbv zeta.
  pose (p := Product.mk "P1" "001" "Camisa" 50 5 true).
  pose (q := Product.mk "P2" "002" "Calca" 80 3 true).
  split.
  - apply (proj1 (searchProductByCode_cases [p; q] [] "999")).
    intros x [<- | [<- | []]]; discriminate.
  - apply (proj2 (searchProductByCode_cases [p; q] [] "002") q).
    + simpl. constructor; [simpl; intros [H | []]; discriminate H|].
      constructor; [simpl; tauto | constructor].
    + right. left. reflexivity.
Defined.

(** X22 -- [handleCreateCustomerFromCPF], whatever [trim] does.  What is sent to
    the store is always the name "Consumidor Final" with a number made of
    digits only and not empty; a field without a digit sends nothing,
    raises "CPF/CNPJ invalido" and changes no state.  Only on the success
    toast does the page change: the new customer is appended and selected
    and the field is cleared; when the store refuses, the customers, the
    selection and the field stay. *)
Theorem handleCreateCustomerFromCPF_cases
        (trim : string -> string) (answer : option string)
        (customers : list Customer.lite) (selectedCustomerId cpfAvulso : string) :
  let cpf := Masks.onlyDigits (trim cpfAvulso) in
  let r := PDV.handleCreateCustomerFromCPF trim answer customers
             selectedCustomerId cpfAvulso in
  (cpf = ""%string ->
   r = (customers, selectedCustomerId, cpfAvulso, None, InvalidCpf))
  /\ (forall name number,
         snd (fst r) = Some (name, number) ->
         name = "Consumidor Final"%string
         /\ number = cpf /\ number <> ""%string /\ allDigits number = true)
  /\ (forall new_id,
         cpf <> ""%string -> answer = Some new_id ->
         r = (customers ++ [Customer.mkLite new_id "Consumidor Final" (Some cpf)],
              new_id, ""%string, Some ("Consumidor Final"%string, cpf),
              CustomerCreated (Masks.formatCpfCnpj cpf)))
  /\ (cpf <> ""%string -> answer = None ->
      r = (customers, selectedCustomerId, cpfAvulso,
           Some ("Consumidor Final"%string, cpf), CustomerFailed)).
Proof.
  intros cpf r. unfold r, PDV.handleCreateCustomerFromCPF. cbv zeta. fold cpf.
  destruct (truthy cpf) eqn:T; cbn [negb].
  - assert (N : cpf <> ""%string).
    { intros E. apply truthy_false in E. congruence. }
    split; [intros E; contradiction|]. split; [|split].
    + intros name number H.
      assert (S : Some (name, number) = Some ("Consumidor Final"%string, cpf))
        by (destruct answer; cbn in H; congruence).
      inversion S. subst. repeat split; [exact N | apply allDigits_onlyDigits].
    + intros new_id _ ->. reflexivity.
    + intros _ ->. reflexivity.
  - apply truthy_false in T.
    split; [reflexivity|]. split; [|split].
    + intros name number H. cbn in H. discriminate H.
    + intros new_id N. contradiction.
    + intros N. contradiction.
Qed.

Lemma handleCreateCustomerFromCPF_cases_witness :
  PDV.handleCreateCustomerFromCPF (fun s => s) (Some "C9"%string) [] ""
                                  "123.456.789-09"
  = ([Customer.mkLite "C9" "Consumidor Final" (Some "12345678909"%string)],
     "C9"%string, ""%string,
     Some ("Consumidor Final"%string, "12345678909"%string),
     CustomerCreated "123.456.789-09")
  /\ PDV.handleCreateCustomerFromCPF (fun s => s) (Some "C9"%string) [] "" "abc"
     = ([], ""%string, "abc"%string, None, InvalidCpf).
Proof.
  split.
  - apply (proj1 (proj2 (proj2
             (handleCreateCustomerFromCPF_cases (fun s => s) (Some "C9"%string) [] ""
                "123.456.789-09"))) "C9"%string); [discriminate | reflexivity].
  - apply (proj1 (handleCreateCustomerFromCPF_cases (fun s => s) (Some "C9"%string)
                    [] "" "abc")).
    reflexivity.
Defined.

(** ** The instalment page: counters, views and slips *)

Lemma filter_and_length (A : Type) (f g : A -> bool) (l : list A) :
  (List.length (filter (fun x => f x && g x) l) <= List.length (filter f l))%nat.
Proof.
  induction l as [|x l IH]; simpl; [lia|].
  destruct (f x), (g x); simpl; lia.
Qed.

Lemma filter_disjoint_length (A : Type) (f g : A -> bool) (l : list A) :
  (forall x, f x = true -> g x = false) ->
  (List.length (filter f l) + List.length (filter g l) <= List.length l)%nat.
Proof.
  intros D. induction l as [|x l IH]; simpl; [lia|].
  destruct (f x) eqn:F; [rewrite (D x F)|destruct (g x)]; simpl; lia.
Qed.

Lemma status_is_exclusive (a b : Installment.Status) (r : Installments.InstallmentRow) :
  a <> b -> Installments.status_is a r = true -> Installments.status_is b r = false.
Proof.
  intros N A. apply status_is_iff in A. unfold Installments.status_is. rewrite A.
  destruct a, b; simpl; congruence.
Qed.

Lemma fold_amounts_shift (rows : list Installments.InstallmentRow) (acc : Q) :
  (fold_left (fun sum r => sum + Installments.amount r) rows acc
   == acc + fold_left (fun sum r => sum + Installments.amount r) rows 0)%Q.
Proof.
  revert acc. induction rows as [|r rows IH]; intros acc; simpl; [ring|].
  rewrite IH. rewrite (IH (0 + Installments.amount r)%Q). ring.
Qed.

Lemma fold_amounts_filter (f : Installments.InstallmentRow -> bool)
      (rows : list Installments.InstallmentRow) :
  Forall (fun r => 0 <= Installments.amount r)%Q rows ->
  (0 <= fold_left (fun sum r => sum + Installments.amount r) (filter f rows) 0
   <= fold_left (fun sum r => sum + Installments.amount r) rows 0)%Q.
Proof.
  induction 1 as [|r rows P _ IH]; simpl; [lra|].
  rewrite (fold_amounts_shift rows (0 + Installments.amount r)%Q).
  destruct (f r); simpl.
  - rewrite (fold_amounts_shift (filter f rows) (0 + Installments.amount r)%Q). lra.
  - lra.
Qed.

(** X23 -- The counters of the instalment page hang together: overdue rows are
    counted among the pending ones, pending and paid rows together are no
    more than all rows, and, amounts not being negative, the value to
    receive lies between zero and the total value. *)
Theorem stats_counts (today : Js.Date) (rows : list Installments.InstallmentRow) :
  Forall (fun r => 0 <= Installments.amount r)%Q rows ->
  let s := Installments.stats today rows in
  (Installments.Stats.overdue s <= Installments.Stats.pending s)%nat
  /\ (Installments.Stats.pending s + Installments.Stats.paid s
      <= Installments.Stats.total s)%nat
  /\ (0 <= Installments.Stats.pendingValue s <= Installments.Stats.totalValue s)%Q.
Proof.
  intros P s. unfold s, Installments.stats.
  cbn [Installments.Stats.overdue Installments.Stats.pending Installments.Stats.paid
       Installments.Stats.total Installments.Stats.pendingValue
       Installments.Stats.totalValue].
  split; [apply filter_and_length|]. split.
  - apply filter_disjoint_length. intros x. apply status_is_exclusive. discriminate.
  - apply fold_amounts_filter. exact P.
Qed.

Lemma stats_counts_witness :
  let today := Js.mkDate 2024 1 15 36000000 in
  let r1 := Installments.mkRow "I1" "S1" 1 33.33 (Js.mkIso 2024 2 14) None
              (Some Installment.pending) "S1" None None None in
  let r2 := Installments.mkRow "I2" "S1" 2 33.33 (Js.mkIso 2024 3 14) None
              (Some Installment.paid) "S1" None None None in
  let s := Installments.stats today [r1; r2] in
  (Installments.Stats.overdue s <= Installments.Stats.pending s)%nat
  /\ (Installments.Stats.pending s + Installments.Stats.paid s
      <= Installments.Stats.total s)%nat.
Proof.
  cbv zeta.
  pose (r1 := Installments.mkRow "I1" "S1" 1 33.33 (Js.mkIso 2024 2 14) None
                (Some Installment.pending) "S1" None None None).
  pose (r2 := Installments.mkRow "I2" "S1" 2 33.33 (Js.mkIso 2024 3 14) None
                (Some Installment.paid) "S1" None None None).
  assert (P : Forall (fun r => 0 <= Installments.amount r)%Q [r1; r2]).
  { repeat constructor; simpl; lra. }
  destruct (stats_counts (Js.mkDate 2024 1 15 36000000) [r1; r2] P) as [A [B _]].
  split; [exact A | exact B].
Defined.

Lemma in_marked (today : Js.Date) (rows : list Installments.InstallmentRow)
      (r : Installments.InstallmentRow) :
  In r (map (Installments.markOverdue today) rows) ->
  Installments.is_overdue r
  = Some (Installments.status_is Installment.pending r
          && Js.ltb (Js.parseISODate (Installments.due_date r)) today).
Proof.
  intros I. apply in_map_iff in I. destruct I as [x [<- _]]. reflexivity.
Qed.

(** X24 -- The views agree with the badges.  After a pass of [filtered], the
    "Vencidas" view lists exactly the rows that match the search and carry
    the badge "Vencido", and the "Pagas" view exactly those that carry
    "Pago"; every row of the "Vencidas" view is also in the "Pendentes"
    view, and none of them is in the "Pagas" view. *)
Theorem filtered_agrees_with_badge
        (queryMatch : Installments.InstallmentRow -> bool) (today : Js.Date)
        (rows : list Installments.InstallmentRow) (r : Installments.InstallmentRow) :
  let view f := snd (Installments.filtered queryMatch f today rows) in
  let state := fst (Installments.filtered queryMatch Installments.FilterAll today rows) in
  (In r (view Installments.FilterOverdue)
   <-> In r state /\ queryMatch r = true
       /\ Installments.getStatusBadge r = Installments.Vencido)
  /\ (In r (view Installments.FilterPaid)
      <-> In r state /\ queryMatch r = true
          /\ Installments.getStatusBadge r = Installments.Pago)
  /\ (In r (view Installments.FilterOverdue) ->
      In r (view Installments.FilterPending)
      /\ ~ In r (view Installments.FilterPaid)).
Proof.
  intros view state. unfold view, state, Installments.filtered. cbn [fst snd].
  assert (B : In r (map (Installments.markOverdue today) rows) ->
              (Installments.getStatusBadge r = Installments.Vencido
               <-> Installments.is_overdue r = Some true)
              /\ (Installments.getStatusBadge r = Installments.Pago
                  <-> Installments.status_is Installment.paid r = true)
              /\ (Installments.is_overdue r = Some true ->
                  Installments.status_is Installment.pending r = true
                  /\ Installments.status_is Installment.paid r = false)).
  { intros I. pose proof (in_marked today rows r I) as M.
    unfold Installments.getStatusBadge. rewrite M.
    unfold Installments.status_is.
    destruct (Installments.status r) as [[]|]; cbn [Installment.Status_eqb andb];
      try (destruct (Js.ltb _ today));
      repeat split; intros; try congruence; try discriminate. }
  split; [|split].
  - rewrite filter_In. unfold Installments.keeps.
    split.
    + intros [I K]. apply andb_true_iff in K. destruct K as [K Q].
      split; [exact I|]. split; [exact Q|]. apply (proj1 (B I)).
      destruct (Installments.is_overdue r) as [[]|]; congruence.
    + intros [I [Q V]]. split; [exact I|].
      apply (proj1 (B I)) in V. rewrite V, Q. reflexivity.
  - rewrite filter_In. unfold Installments.keeps.
    split.
    + intros [I K]. apply andb_true_iff in K. destruct K as [K Q].
      split; [exact I|]. split; [exact Q|]. apply (proj1 (proj2 (B I))). exact K.
    + intros [I [Q V]]. split; [exact I|].
      apply (proj1 (proj2 (B I))) in V. rewrite V, Q. reflexivity.
  - rewrite !filter_In. unfold Installments.keeps.
    intros [I K]. apply andb_true_iff in K. destruct K as [K Q].
    assert (O : Installments.is_overdue r = Some true)
      by (destruct (Installments.is_overdue r) as [[]|]; congruence).
    destruct (proj2 (proj2 (B I)) O) as [Pe Pa].
    split; [split; [exact I | rewrite Pe, Q; reflexivity]|].
    intros [_ K2]. rewrite Pa in K2. discriminate K2.
Qed.

Lemma filtered_agrees_with_badge_witness :
  let today := Js.mkDate 2024 1 15 36000000 in
  let r := Installments.mkRow "I1" "S1" 1 33.33 (Js.mkIso 2024 2 14) None
             (Some Installment.pending) "S1" None None None in
  let shown := Installments.markOverdue today r in
  In shown (snd (Installments.filtered (fun _ => true) Installments.FilterPending
                   today [r])).
Proof.
  cbv zeta.
  pose (today := Js.mkDate 2024 1 15 36000000).
  pose (r := Installments.mkRow "I1" "S1" 1 33.33 (Js.mkIso 2024 2 14) None
               (Some Installment.pending) "S1" None None None).
  destruct (filtered_agrees_with_badge (fun _ => true) today [r]
              (Installments.markOverdue today r)) as [_ [_ C]].
  apply C. left. reflexivity.
Defined.

Lemma map_id_on (A : Type) (f : A -> A) (l : list A) :
  (forall x, In x l -> f x = x) -> map f l = l.
Proof.
  induction l as [|x l IH]; intros H; simpl; [reflexivity|].
  rewrite (H x (or_introl eq_refl)), IH; [reflexivity|].
  intros y I. apply H. right. exact I.
Qed.

(** X25 -- [markAsPaid] touches the rows of one identifier and nothing else.  Rows
    of another identifier are left as they were, in the store and on the
    page, no row is added or dropped, and products, sales and sale items
    are not written.  For an identifier no row has, store and page stay as
    they were, and the toast is still "Parcela marcada como paga": an
    unknown identifier is not reported. *)
Theorem markAsPaid_other_rows
        (now : Js.Date) (iid : string) (db : Db.t)
        (rows : list Installments.InstallmentRow) :
  let r := Installments.markAsPaid false now iid db rows in
  let db' := fst (fst r) in
  let rows' := snd (fst r) in
  filter (fun x => negb (Installment.id x =? iid)%string) (Db.installments db')
  = filter (fun x => negb (Installment.id x =? iid)%string) (Db.installments db)
  /\ filter (fun x => negb (Installments.id x =? iid)%string) rows'
     = filter (fun x => negb (Installments.id x =? iid)%string) rows
  /\ map Installment.id (Db.installments db') = map Installment.id (Db.installments db)
  /\ map Installments.id rows' = map Installments.id rows
  /\ (Db.products db', Db.sales db', Db.sale_items db')
     = (Db.products db, Db.sales db, Db.sale_items db)
  /\ ((forall x, In x (Db.installments db) -> Installment.id x <> iid) ->
      (forall x, In x rows -> Installments.id x <> iid) ->
      r = (db, rows, Installments.MarkedPaid)).
Proof.
  intros r db' rows'. unfold db', rows', r, Installments.markAsPaid.
  cbn [fst snd]. rewrite update_installment_rows.
  split; [|split; [|split; [|split; [|split]]]].
  - induction (Db.installments db) as [|x l IH]; simpl; [reflexivity|].
    destruct (Installment.id x =? iid)%string eqn:E; cbn [Installment.id paidOn];
      rewrite E; simpl; rewrite IH; reflexivity.
  - induction rows as [|x l IH]; simpl; [reflexivity|].
    destruct (Installments.id x =? iid)%string eqn:E; cbn [Installments.id];
      rewrite E; simpl; rewrite IH; reflexivity.
  - rewrite map_map. apply map_ext. intros x.
    destruct (Installment.id x =? iid)%string; reflexivity.
  - rewrite map_map. apply map_ext. intros x.
    destruct (Installments.id x =? iid)%string; reflexivity.
  - reflexivity.
  - intros Nd Nr. f_equal. f_equal.
    + destruct db as [p s i n]. unfold Db.update_installment.
      cbn [Db.products Db.sales Db.sale_items Db.installments] in *. f_equal.
      apply map_id_on. intros x I.
      destruct (String.eqb_spec (Installment.id x) iid) as [E|_];
        [exfalso; exact (Nd x I E) | reflexivity].
    + apply map_id_on. intros x I.
      destruct (String.eqb_spec (Installments.id x) iid) as [E|_];
        [exfalso; exact (Nr x I E) | reflexivity].
Qed.

Lemma markAsPaid_other_rows_witness :
  let r := Installment.mk "I1" "S1" 1 33.33 (Js.mkIso 2024 2 15) None
                          (Some Installment.pending) in
  let db := Db.mk [] [] [] [r] in
  Installments.markAsPaid false (Js.mkDate 2024 1 20 0) "I7" db []
  = (db, [], Installments.MarkedPaid).
Proof.
  cbv zeta.
  pose (r := Installment.mk "I1" "S1" 1 33.33 (Js.mkIso 2024 2 15) None
                            (Some Installment.pending)).
  destruct (markAsPaid_other_rows (Js.mkDate 2024 1 20 0) "I7" (Db.mk [] [] [] [r]) [])
    as [_ [_ [_ [_ [_ H]]]]].
  apply H.
  - intros x [<- | []]. discriminate.
  - intros x [].
Defined.

(** X26 -- Paying one instalment moves one row from "Pendentes" to "Pagas".  With
    identifiers unique among the rows of the page and the row of [iid]
    pending, after [markAsPaid] on a store that answers the counters show
    one pending row less and one paid row more, the same number of rows and
    the same total value. *)
Theorem markAsPaid_moves_counter
        (now today : Js.Date) (iid : string) (db : Db.t)
        (rows : list Installments.InstallmentRow) (r : Installments.InstallmentRow) :
  NoDup (map Installments.id rows) ->
  In r rows ->
  Installments.id r = iid ->
  Installments.status r = Some Installment.pending ->
  let rows' := snd (fst (Installments.markAsPaid false now iid db rows)) in
  let s := Installments.stats today rows in
  let s' := Installments.stats today rows' in
  S (Installments.Stats.pending s') = Installments.Stats.pending s
  /\ Installments.Stats.paid s' = S (Installments.Stats.paid s)
  /\ Installments.Stats.total s' = Installments.Stats.total s
  /\ (Installments.Stats.totalValue s' == Installments.Stats.totalValue s)%Q.
Proof.
  intros U I E P rows' s s'. unfold s, s', rows', Installments.stats, Installments.markAsPaid.
  cbn [fst snd Installments.Stats.pending Installments.Stats.paid
       Installments.Stats.total Installments.Stats.totalValue].
  set (f := fun x : Installments.InstallmentRow =>
              if (Installments.id x =? iid)%string
              then Installments.mkRow (Installments.id x) (Installments.sale_id x)
                     (Installments.installment_number x) (Installments.amount x)
                     (Installments.due_date x) (Some (Installments.Timestamp now))
                     (Some Installment.paid) (Installments.sale_code x)
                     (Installments.customer_name x) (Installments.total_amount x)
                     (Installments.is_overdue x)
              else x).
  assert (V : forall l acc,
             (fold_left (fun sum x => sum + Installments.amount x) (map f l) acc
              == fold_left (fun sum x => sum + Installments.amount x) l acc)%Q).
  { induction l as [|x l IH]; intros acc; simpl; [reflexivity|].
    rewrite IH. unfold f at 1.
    destruct (Installments.id x =? iid)%string; reflexivity. }
  assert (Fr : Installments.status_is Installment.pending (f r) = false
               /\ Installments.status_is Installment.paid (f r) = true
               /\ Installments.status_is Installment.pending r = true
               /\ Installments.status_is Installment.paid r = false).
  { unfold f. rewrite E, String.eqb_refl. unfold Installments.status_is.
    cbn [Installments.status]. rewrite P. repeat split. }
  destruct Fr as [F1 [F2 [F3 F4]]].
  assert (Fix : forall l, ~ In iid (map Installments.id l) -> map f l = l).
  { intros l N. apply map_id_on. intros y Iy. unfold f.
    destruct (String.eqb_spec (Installments.id y) iid) as [Ey|_]; [|reflexivity].
    exfalso. apply N. rewrite <- Ey. apply in_map. exact Iy. }
  assert (Other : forall x, Installments.id x <> iid -> f x = x).
  { intros x Nx. unfold f.
    destruct (String.eqb_spec (Installments.id x) iid); [contradiction | reflexivity]. }
  split; [|split; [|split; [apply length_map | apply V]]].
  - clear V. revert U I. induction rows as [|x l IH]; intros U I; [contradiction|].
    simpl in U. inversion U as [|? ? N R]; subst.
    destruct I as [-> | I].
    + cbn [map filter]. rewrite (Fix l N), F1, F3. reflexivity.
    + assert (Nx : Installments.id x <> Installments.id r).
      { intros Ex. apply N. rewrite Ex. apply in_map. exact I. }
      cbn [map filter]. rewrite (Other x Nx).
      destruct (Installments.status_is Installment.pending x); cbn [List.length];
        rewrite <- (IH R I); reflexivity.
  - clear V. revert U I. induction rows as [|x l IH]; intros U I; [contradiction|].
    simpl in U. inversion U as [|? ? N R]; subst.
    destruct I as [-> | I].
    + cbn [map filter]. rewrite (Fix l N), F2, F4. reflexivity.
    + assert (Nx : Installments.id x <> Installments.id r).
      { intros Ex. apply N. rewrite Ex. apply in_map. exact I. }
      cbn [map filter]. rewrite (Other x Nx).
      destruct (Installments.status_is Installment.paid x); cbn [List.length];
        rewrite (IH R I); reflexivity.
Qed.

Lemma markAsPaid_moves_counter_witness :
  let today := Js.mkDate 2024 1 15 36000000 in
  let r1 := Installments.mkRow "I1" "S1" 1 33.33 (Js.mkIso 2024 2 14) None
              (Some Installment.pending) "S1" None None None in
  let r2 := Installments.mkRow "I2" "S1" 2 33.33 (Js.mkIso 2024 3 14) None
              (Some Installment.pending) "S1" None None None in
  let rows' := snd (fst (Installments.markAsPaid false today "I1"
                           (Db.mk [] [] [] []) [r1; r2])) in
  S (Installments.Stats.pending (Installments.stats today rows'))
  = Installments.Stats.pending (Installments.stats today [r1; r2])
  /\ Installments.Stats.paid (Installments.stats today rows')
     = S (Installments.Stats.paid (Installments.stats today [r1; r2])).
Proof.
  cbv zeta.
  pose (today := Js.mkDate 2024 1 15 36000000).
  pose (r1 := Installments.mkRow "I1" "S1" 1 33.33 (Js.mkIso 2024 2 14) None
                (Some Installment.pending) "S1" None None None).
  pose (r2 := Installments.mkRow "I2" "S1" 2 33.33 (Js.mkIso 2024 3 14) None
                (Some Installment.pending) "S1" None None None).
  assert (U : NoDup (map Installments.id [r1; r2])).
  { simpl. constructor; [simpl; intros [H | []]; discriminate H|].
    constructor; [simpl; tauto | constructor]. }
  destruct (markAsPaid_moves_counter today today "I1" (Db.mk [] [] [] []) [r1; r2] r1
              U (or_introl eq_refl) eq_refl eq_refl) as [A [B _]].
  split; [exact A | exact B].
Defined.

(** X27 -- A paid instalment leaves the open views.  After [markAsPaid] on a store
    that answers, whatever the search and the instant of the next pass of
    [filtered], no row of that identifier is listed under "Pendentes" or
    under "Vencidas", and such a row is listed under "Pagas" as soon as it
    matches the search; its badge is "Pago". *)
Theorem markAsPaid_then_views
        (queryMatch : Installments.InstallmentRow -> bool) (now today : Js.Date)
        (iid : string) (db : Db.t) (rows : list Installments.InstallmentRow)
        (r : Installments.InstallmentRow) :
  let rows' := snd (fst (Installments.markAsPaid false now iid db rows)) in
  let view f := snd (Installments.filtered queryMatch f today rows') in
  Installments.id r = iid ->
  (~ In r (view Installments.FilterPending))
  /\ (~ In r (view Installments.FilterOverdue))
  /\ (In r (fst (Installments.filtered queryMatch Installments.FilterPaid today rows')) ->
      Installments.getStatusBadge r = Installments.Pago
      /\ (queryMatch r = true -> In r (view Installments.FilterPaid))).
Proof.
  intros rows' view E.
  assert (P : forall x, In x (map (Installments.markOverdue today) rows') ->
                        Installments.id x = iid ->
                        Installments.status x = Some Installment.paid
                        /\ Installments.is_overdue x = Some false).
  { intros x I Ex. apply in_map_iff in I. destruct I as [y [<- Iy]].
    unfold rows', Installments.markAsPaid in Iy. cbn [fst snd] in Iy.
    apply in_map_iff in Iy. destruct Iy as [z [<- _]].
    cbn [Installments.id Installments.markOverdue] in Ex.
    destruct (String.eqb_spec (Installments.id z) iid) as [Ez|Nz].
    - split; reflexivity.
    - exfalso. apply Nz. exact Ex. }
  unfold view, Installments.filtered. cbn [fst snd].
  split; [|split].
  - intros I. apply filter_In in I. destruct I as [I K].
    destruct (P r I E) as [S _]. unfold Installments.keeps, Installments.status_is in K.
    rewrite S in K. discriminate K.
  - intros I. apply filter_In in I. destruct I as [I K].
    destruct (P r I E) as [_ O]. unfold Installments.keeps in K.
    rewrite O in K. discriminate K.
  - intros I. destruct (P r I E) as [S _]. split.
    + unfold Installments.getStatusBadge, Installments.status_is. rewrite S. reflexivity.
    + intros Q. apply filter_In. split; [exact I|].
      unfold Installments.keeps, Installments.status_is. rewrite S, Q. reflexivity.
Qed.

Lemma markAsPaid_then_views_witness :
  let today := Js.mkDate 2024 1 15 36000000 in
  let r := Installments.mkRow "I1" "S1" 1 33.33 (Js.mkIso 2024 2 14) None
             (Some Installment.pending) "S1" None None None in
  let rows' := snd (fst (Installments.markAsPaid false today "I1"
                           (Db.mk [] [] [] []) [r])) in
  let shown := Installments.mkRow "I1" "S1" 1 33.33 (Js.mkIso 2024 2 14)
                 (Some (Installments.Timestamp today)) (Some Installment.paid)
                 "S1" None None (Some false) in
  Installments.getStatusBadge shown = Installments.Pago
  /\ In shown (snd (Installments.filtered (fun _ => true) Installments.FilterPaid
                      today rows')).
Proof.
  cbv zeta.
  pose (today := Js.mkDate 2024 1 15 36000000).
  pose (r := Installments.mkRow "I1" "S1" 1 33.33 (Js.mkIso 2024 2 14) None
               (Some Installment.pending) "S1" None None None).
  pose (shown := Installments.mkRow "I1" "S1" 1 33.33 (Js.mkIso 2024 2 14)
                   (Some (Installments.Timestamp today)) (Some Installment.paid)
                   "S1" None None (Some false)).
  destruct (markAsPaid_then_views (fun _ => true) today today "I1" (Db.mk [] [] [] [])
              [r] shown eq_refl) as [_ [_ H]].
  destruct (H (or_introl eq_refl)) as [B V].
  split; [exact B | exact (V eq_refl)].
Defined.

(** X28 -- Printing slips.  "Imprimir Pendentes" writes slips for the pending rows
    of the current view and for no other row, and raises "Nenhuma parcela"
    instead of opening an empty window; under the "Pagas" view it always
    raises "Nenhuma parcela".  The printer button of a row writes the slips
    of the rows of that identifier in the view, paid or not. *)
Theorem generateCarnet_selection
        (queryMatch : Installments.InstallmentRow -> bool) (today : Js.Date)
        (rows view : list Installments.InstallmentRow) (i : string) :
  (forall items,
      Installments.generateCarnet None view = Installments.Printed items ->
      items <> []
      /\ forall r, In r items <->
                   In r view /\ Installments.status r = Some Installment.pending)
  /\ (Installments.generateCarnet None view = Installments.NoRows <->
      forall r, In r view -> Installments.status r <> Some Installment.pending)
  /\ Installments.generateCarnet None
       (snd (Installments.filtered queryMatch Installments.FilterPaid today rows))
     = Installments.NoRows
  /\ (i <> ""%string ->
      forall items,
        Installments.generateCarnet (Some i) view = Installments.Printed items ->
        items <> [] /\ forall r, In r items <-> In r view /\ Installments.id r = i).
Proof.
  assert (G : forall (f : Installments.InstallmentRow -> bool) l,
             (if (List.length (filter f l) =? 0)%nat
              then Installments.NoRows else Installments.Printed (filter f l))
             = Installments.NoRows <-> filter f l = []).
  { intros f l. destruct (filter f l); simpl; split; intros H; congruence. }
  assert (P : forall (f : Installments.InstallmentRow -> bool) l items,
             (if (List.length (filter f l) =? 0)%nat
              then Installments.NoRows else Installments.Printed (filter f l))
             = Installments.Printed items ->
             items <> [] /\ items = filter f l).
  { intros f l items. destruct (filter f l); simpl; intros H; [discriminate H|].
    inversion H. split; [discriminate | reflexivity]. }
  assert (E : forall (f : Installments.InstallmentRow -> bool) l,
             filter f l = [] <-> forall r, In r l -> f r = false).
  { intros f l. induction l as [|x l IH]; simpl; [tauto|].
    destruct (f x) eqn:F; split.
    - discriminate.
    - intros H. specialize (H x (or_introl eq_refl)). congruence.
    - intros H r [<- | I]; [exact F | exact (proj1 IH H r I)].
    - intros H. apply IH. intros r I. apply H. right. exact I. }
  unfold Installments.generateCarnet. cbv zeta. split; [|split; [|split]].
  - intros items H. apply P in H. destruct H as [N ->]. split; [exact N|].
    intros r. rewrite filter_In, status_is_iff. reflexivity.
  - rewrite G, E. split; intros H r I.
    + specialize (H r I). intros S. apply status_is_iff in S. congruence.
    + specialize (H r I). destruct (Installments.status_is Installment.pending r) eqn:S;
        [apply status_is_iff in S; contradiction | reflexivity].
  - apply G, E. intros r I. unfold Installments.filtered in I. cbn [snd] in I.
    apply filter_In in I. destruct I as [_ K]. unfold Installments.keeps in K.
    apply andb_true_iff in K. destruct K as [K _].
    apply (status_is_exclusive Installment.paid Installment.pending); [discriminate | exact K].
  - intros Ni items H.
    assert (T : truthy i = true).
    { destruct (truthy i) eqn:T; [reflexivity|]. apply truthy_false in T. contradiction. }
    rewrite T in H. apply P in H. destruct H as [N ->]. split; [exact N|].
    intros r. rewrite filter_In, String.eqb_eq. reflexivity.
Qed.

Lemma generateCarnet_selection_witness :
  let r1 := Installments.mkRow "I1" "S1" 1 33.33 (Js.mkIso 2024 2 14) None
              (Some Installment.pending) "S1" None None None in
  let r2 := Installments.mkRow "I2" "S1" 2 33.33 (Js.mkIso 2024 3 14) None
              (Some Installment.paid) "S1" None None None in
  In r2 [r2] <-> In r2 [r1; r2] /\ Installments.id r2 = "I2"%string.
Proof.
  cbv zeta.
  pose (r1 := Installments.mkRow "I1" "S1" 1 33.33 (Js.mkIso 2024 2 14) None
                (Some Installment.pending) "S1" None None None).
  pose (r2 := Installments.mkRow "I2" "S1" 2 33.33 (Js.mkIso 2024 3 14) None
                (Some Installment.paid) "S1" None None None).
  assert (N : "I2"%string <> ""%string) by discriminate.
  destruct (generateCarnet_selection (fun _ => true) (Js.mkDate 2024 1 15 0) []
              [r1; r2] "I2") as [_ [_ [_ G]]].
  exact (proj2 (G N [r2] eq_refl) r2).
Defined.
